(** * RL recommendation service: startup, HTTP handlers and user database

    A shallow embedding of [main.py], [api/app.py] and [auth/user_db.py].
    Python objects with hidden state are driven through their methods; every
    method call can return or raise, and each handler is a program in a small
    monad whose execution threads the state, propagates exceptions and
    records the calls made. *)

From Stdlib Require Import ZArith List Lia Ascii.
From stdpp Require Import base option gmap strings list pretty.

Open Scope string_scope.

(** ** Python control flow: exceptions, outcomes, traced state monad *)

Module Py.

(** Instances of Python's [Exception]: FastAPI's [HTTPException] (itself a
    subclass of [Exception]) and every other exception class, kept by class
    name and message.  [SystemExit] and [KeyboardInterrupt] are not
    [Exception]s and are outside the model. *)
Inductive exn : Type :=
| HTTPException (status_code : Z) (detail : string)
| Error (cls : string) (msg : string).

Inductive outcome (A : Type) : Type :=
| Returned (a : A)
| Raised (e : exn).
Arguments Returned {A} a.
Arguments Raised {A} e.

(** [holds P x] is [P x], kept folded while [x] is being evaluated. *)
Definition holds {A} (P : A -> Prop) (x : A) : Prop := P x.
Arguments holds : simpl never.

Definition returned {A} (o : outcome A) : bool :=
  match o with Returned _ => true | Raised _ => false end.

Definition raised_exn {A} (o : outcome A) : option exn :=
  match o with Returned _ => None | Raised e => Some e end.

Inductive level : Type := INFO | WARNING | ERROR.

(** [str(e)] and [traceback.format_exc()], as the interpreter renders
    them. *)
Class Rendering : Type := {
  str_exn : exn -> string;
  format_exc : exn -> string
}.

Section Effects.
Context {E S : Type}.

(** A handler as a loop-free program over a state [S]: it returns,
    raises, emits an event, reads the state, or calls a collaborator
    [op] and goes on with how the call ended, whether it returned or
    raised.  [ev] describes the call given that ending. *)
Inductive prog (A : Type) : Type :=
| Ret (a : A)
| Throw (e : exn)
| Emit (ev : E) (k : prog A)
| Get (k : S -> prog A)
| Call {X : Type} (ev : option exn -> E) (op : S -> outcome X * S)
       (k : outcome X -> prog A).
Arguments Ret {A} a.
Arguments Throw {A} e.
Arguments Emit {A} ev k.
Arguments Get {A} k.
Arguments Call {A X} ev op k.

Fixpoint bind {A B} (m : prog A) (f : A -> prog B) : prog B :=
  match m with
  | Ret a => f a
  | Throw e => Throw e
  | Emit ev k => Emit ev (bind k f)
  | Get k => Get (fun s => bind (k s) f)
  | Call ev op k => Call ev op (fun o => bind (k o) f)
  end.

(** [try: body  except Exception as e: handler e].  Whatever [body]
    did to the state before it raised stays done. *)
Fixpoint try_except {A} (body : prog A) (handler : exn -> prog A) : prog A :=
  match body with
  | Ret a => Ret a
  | Throw e => handler e
  | Emit ev k => Emit ev (try_except k handler)
  | Get k => Get (fun s => try_except (k s) handler)
  | Call ev op k => Call ev op (fun o => try_except (k o) handler)
  end.

Definition of_outcome {A} (o : outcome A) : prog A :=
  match o with Returned a => Ret a | Raised e => Throw e end.

Definition call {A} (ev : option exn -> E) (op : S -> outcome A * S) : prog A :=
  Call ev op of_outcome.

Definition emit (ev : E) : prog unit := Emit ev (Ret tt).

(** An attribute read: no call, no event. *)
Definition read {A} (f : S -> A) : prog A := Get (fun s => Ret (f s)).

(** What one execution leaves behind: how it ended, the state it ended
    in, and the events it emitted, oldest first. *)
Record run (A : Type) : Type :=
  Run { result : outcome A; final : S; trace : list E }.
Arguments Run {A} _ _ _.
Arguments result {A} _.
Arguments final {A} _.
Arguments trace {A} _.

Definition after {A} (evs : list E) (r : run A) : run A :=
  Run (result r) (final r) (evs ++ trace r).

Fixpoint exec {A} (m : prog A) (s : S) : run A :=
  match m with
  | Ret a => Run (Returned a) s []
  | Throw e => Run (Raised e) s []
  | Emit ev k => after [ev] (exec k s)
  | Get k => exec (k s) s
  | Call ev op k =>
      let '(o, s') := op s in after [ev (raised_exn o)] (exec (k o) s')
  end.
End Effects.

Arguments prog : clear implicits.
Arguments Ret {E S A} a.
Arguments Throw {E S A} e.
Arguments Emit {E S A} ev k.
Arguments Get {E S A} k.
Arguments Call {E S A X} ev op k.
Arguments run : clear implicits.
Arguments Run {E S A} _ _ _.
Arguments result {E S A} _.
Arguments final {E S A} _.
Arguments trace {E S A} _.

Declare Scope py_scope.
Delimit Scope py_scope with py.
Notation "x <- m ;; k" := (bind m (fun x => k))
  (at level 100, m at next level, k at level 200,
   right associativity) : py_scope.
Notation "m ;; k" := (bind m (fun _ => k))
  (at level 100, k at level 200, right associativity) : py_scope.

End Py.

Export Py.
Open Scope py_scope.

(** ** auth/user_db.py *)

Module UserDb.

(** [pwd_context = CryptContext(schemes=["argon2"])] from passlib.
    [hash] salts the password with fresh randomness, given here as the
    second argument, and raises when the backend fails or refuses the
    password; [verify] checks a password against a stored hash and raises
    on a string it cannot identify as a hash. *)
Class CryptContext : Type := {
  pwd_hash : string -> string -> outcome string;
  pwd_verify : string -> string -> outcome bool
}.

(** What sits at the path [users_file]: nothing, text that does not parse,
    or a JSON object of user records.  A file that parses to anything
    else is outside this type. *)
Inductive file : Type :=
| Missing
| Malformed
| Json (data : gmap string (gmap string string)).

(** What the file system does to one write of the users file, when it does
    not simply succeed: [open(..., 'w')] raises and the file stays as it
    was (no directory, no permission), or the file is opened, hence
    truncated, and [json.dump] raises, leaving text that does not
    parse. *)
Inductive write_fault : Type :=
| OpenFails (e : exn)
| DumpFails (e : exn).

(** A [UserDatabase] object together with the file it persists to. *)
Record UserDatabase : Type := {
  users : gmap string (gmap string string);
  users_file : file
}.

Definition _load_users (f : file) : gmap string (gmap string string) :=
  match f with
  | Missing => ∅
  | Malformed => ∅
  | Json data => data
  end.

Definition __init__ (f : file) : UserDatabase :=
  {| users := _load_users f; users_file := f |}.

(** [fault] is what the file system does to this write; [None] when it
    goes through. *)
Definition _save_users (self : UserDatabase) (fault : option write_fault)
  : outcome unit * UserDatabase :=
  match fault with
  | None => (Returned tt, {| users := users self; users_file := Json (users self) |})
  | Some (OpenFails e) => (Raised e, self)
  | Some (DumpFails e) =>
      (Raised e, {| users := users self; users_file := Malformed |})
  end.

Definition get_user (self : UserDatabase) (username : string)
  : option (gmap string string) :=
  users self !! username.

(** Python's [not user] for what [dict.get] gives back: true for [None]
    and for an empty dict. *)
Definition falsy (user : option (gmap string string)) : bool :=
  match user with
  | None => true
  | Some d => bool_decide (d = ∅)
  end.

Section WithCryptContext.
Context `{CryptContext}.

(** [salt] is the randomness that [pwd_context.hash] draws, [fault] what
    the file system does to the write.  An exception of [hash] leaves
    before anything is stored; an exception of [_save_users] leaves after
    [self.users] was updated. *)
Definition create_user (self : UserDatabase) (username password salt : string)
    (fault : option write_fault) : outcome bool * UserDatabase :=
  match users self !! username with
  | Some _ => (Returned false, self)
  | None =>
      match pwd_hash password salt with
      | Raised e => (Raised e, self)
      | Returned hashed =>
          let self' :=
            {| users := <[username :=
                           {[ "username" := username;
                              "hashed_password" := hashed ]}]> (users self);
               users_file := users_file self |} in
          match _save_users self' fault with
          | (Returned _, saved) => (Returned true, saved)
          | (Raised e, unsaved) => (Raised e, unsaved)
          end
      end
  end.


(** [user["hashed_password"]] raises [KeyError] on a record without that
    key, which a hand-edited file can hold. *)
Definition authenticate_user (self : UserDatabase) (username password : string)
  : outcome bool :=
  let user := get_user self username in
  if falsy user then Returned false
  else match user ≫= (.!! "hashed_password") with
       | Some hashed => pwd_verify password hashed
       | None => Raised (Error "KeyError" "'hashed_password'")
       end.
End WithCryptContext.

(** An unsalted toy scheme for examples: the hash is a dollar sign
    followed by the password. *)
Definition toy_context : CryptContext := {|
  pwd_hash password salt := Returned (String "$" password);
  pwd_verify password hashed :=
    match hashed with
    | String "$" p => Returned (String.eqb p password)
    | _ => Raised (Error "UnknownHashError" "hash could not be identified")
    end
|}.

End UserDb.

(** ** api/app.py *)

Module Api.

(** [security.TokenData], as far as the handlers read it. *)
Record TokenData : Type := { user_id : string }.

(** [schemas.QuestionRequest], as far as the handlers read it. *)
Record QuestionRequest : Type := { question : string }.

(** The dict that [response_generator.generate_answer] returns, by the
    keys [ask_question] reads. *)
Record ResponseData (View : Type) : Type := {
  rd_answer : string;
  rd_recommended_article : View;
  rd_suggested_actions : list string
}.
Arguments rd_answer {View} _.
Arguments rd_recommended_article {View} _.
Arguments rd_suggested_actions {View} _.

(** The objects handed to [RecommendationAPI.__init__] whose classes are
    outside these sources: [env], [agent] and [response_generator].  They
    share a hidden state (encoder, current question, network weights);
    each method returns or raises and may change it. *)
Class Collaborators : Type := {
  State : Type;
  Article : Type;
  Reward : Type;
  View : Type;
  Confidence : Type;
  Hidden : Type;
  reset : string -> Hidden -> outcome State * Hidden;
  select_action : State -> bool -> Hidden -> outcome Z * Hidden;
  _calculate_reward : Article -> Hidden -> outcome Reward * Hidden;
  generate_answer :
    string -> Article -> Hidden -> outcome (ResponseData View) * Hidden;
  (** [view["confidence"]] *)
  confidence : View -> Confidence;
  (** arithmetic mean of the rewards of a session, in the floating-point
      arithmetic of the host *)
  mean : list Reward -> Reward;
  (** [bool(article)]: false for an article that is empty *)
  truthy : Article -> bool
}.

Section WithCollaborators.
Context `{Collaborators} `{Rendering}.

(** Modelled from the spec: ArticleStore ([database/article_db.py] is
    not among the sources).  The corpus is held in a fixed order under
    its identifiers; the store offers lookup by id, giving the article
    or absent, and enumeration of all articles, and is read-only to
    its callers. *)
Record ArticleDatabase : Type := { articles : list (Z * Article) }.

Definition get_article (self : ArticleDatabase) (article_id : Z)
  : option Article :=
  snd <$> List.find (fun entry => Z.eqb (fst entry) article_id) (articles self).

Definition get_all_articles (self : ArticleDatabase) : list Article :=
  snd <$> articles self.

Record Interaction : Type := {
  i_question : string;
  i_article : Article;
  i_reward : Reward;
  i_timestamp : nat
}.

Record SessionStats : Type := {
  total_interactions : nat;
  average_reward : Reward;
  last_activity : nat
}.

Record Session : Type := {
  interactions : list Interaction;
  stats : SessionStats
}.

(** Modelled from the spec: SessionStore ([database/session_manager.py]
    is not among the sources).  A map from user id to session, each an
    append-only interaction log with derived stats (count, average
    reward, last activity); every mutation is committed to durable
    storage. *)
Record SessionManager : Type := {
  sessions : gmap string Session;
  durable : gmap string Session
}.

Definition commit (m : gmap string Session) : SessionManager :=
  {| sessions := m; durable := m |}.

Definition empty_session (now : nat) : Session :=
  {| interactions := [];
     stats := {| total_interactions := 0;
                 average_reward := mean [];
                 last_activity := now |} |}.

(** Modelled from the spec: createSession initializes an empty session
    if absent and does nothing when called again. *)
Definition create_session (self : SessionManager) (now : nat) (uid : string)
  : SessionManager :=
  match sessions self !! uid with
  | Some _ => self
  | None => commit (<[uid := empty_session now]> (sessions self))
  end.

Definition record_interaction (s : Session) (i : Interaction) : Session :=
  let log := (interactions s ++ [i])%list in
  {| interactions := log;
     stats := {| total_interactions := length log;
                 average_reward := mean (i_reward <$> log);
                 last_activity := i_timestamp i |} |}.

(** Modelled from the spec: addInteraction appends an Interaction to
    the user's session, creating the session on first use, and updates
    the derived stats. *)
Definition add_interaction (self : SessionManager) (now : nat)
    (uid q : string) (article : Article) (reward : Reward) : SessionManager :=
  let self' := create_session self now uid in
  let i := {| i_question := q; i_article := article;
              i_reward := reward; i_timestamp := now |} in
  match sessions self' !! uid with
  | Some s => commit (<[uid := record_interaction s i]> (sessions self'))
  | None => self'
  end.

(** Modelled from the spec: getStats returns the stats of the user's
    session, or an explicit absent when the user has no session. *)
Definition session_stats (self : SessionManager) (uid : string)
  : option SessionStats :=
  stats <$> sessions self !! uid.

(** The interaction log of a user, empty when the user has no session. *)
Definition log_of (self : SessionManager) (uid : string) : list Interaction :=
  match sessions self !! uid with
  | Some s => interactions s
  | None => []
  end.

(** Everything a [RecommendationAPI] object reaches through [self],
    and the wall clock. *)
Record World : Type := {
  article_db : ArticleDatabase;
  session_manager : SessionManager;
  clock : nat;
  hidden : Hidden
}.

Definition with_hidden {X} (op : Hidden -> outcome X * Hidden) (w : World)
  : outcome X * World :=
  let '(o, h) := op (hidden w) in
  (o, {| article_db := article_db w; session_manager := session_manager w;
         clock := clock w; hidden := h |}).

Definition with_sessions (f : SessionManager -> nat -> SessionManager)
    (w : World) : outcome unit * World :=
  (Returned tt,
   {| article_db := article_db w;
      session_manager := f (session_manager w) (clock w);
      clock := clock w; hidden := hidden w |}).

Definition reading {X} (f : World -> X) (w : World) : outcome X * World :=
  (Returned (f w), w).

Inductive callee : Type :=
| CreateSession (uid : string)
| Reset (q : string)
| SelectAction (state : State) (training : bool)
| GetArticle (article_id : Z)
| CalculateReward (article : Article)
| AddInteraction (uid q : string) (article : Article) (reward : Reward)
| GenerateAnswer (q : string) (article : Article)
| GetSessionStats (uid : string)
| GetAllArticles.

Inductive event : Type :=
| Called (c : callee) (raised : option exn)
| Logged (l : level) (msg : string).

Record RecommendationResponse : Type := {
  answer : string;
  recommended_article : View;
  suggested_actions : list string;
  session_id : string;
  resp_confidence : Confidence
}.

(** [schemas.SessionStatsResponse], filled from the keys of the stats
    dict. *)
Record SessionStatsResponse : Type := { of_stats : SessionStats }.

Record HealthResponse : Type := {
  status : string;
  articles_count : nat;
  sessions_count : nat
}.

(** [@app.post("/ask")].  [if not recommended_article] holds for [None]
    and for an article that is falsy. *)
Definition ask_question (request : QuestionRequest) (current_user : TokenData)
  : prog event World RecommendationResponse :=
  try_except
    (let user_id := user_id current_user in
     known <- read (fun w =>
                bool_decide (is_Some (sessions (session_manager w) !! user_id))) ;;
     (if known : bool then Ret tt
      else call (Called (CreateSession user_id))
             (with_sessions (fun sm now => create_session sm now user_id))) ;;
     state <- call (Called (Reset (question request)))
                (with_hidden (reset (question request))) ;;
     article_id <- call (Called (SelectAction state false))
                     (with_hidden (select_action state false)) ;;
     recommended_article <-
       call (Called (GetArticle article_id))
         (reading (fun w => get_article (article_db w) article_id)) ;;
     match recommended_article with
     | None => Throw (HTTPException 404 "Article not found")
     | Some recommended_article =>
         if negb (truthy recommended_article)
         then Throw (HTTPException 404 "Article not found")
         else
         reward <- call (Called (CalculateReward recommended_article))
                     (with_hidden (_calculate_reward recommended_article)) ;;
         call (Called (AddInteraction user_id (question request)
                         recommended_article reward))
           (with_sessions (fun sm now =>
              add_interaction sm now user_id (question request)
                recommended_article reward)) ;;
         response_data <-
           call (Called (GenerateAnswer (question request) recommended_article))
             (with_hidden (generate_answer (question request)
                             recommended_article)) ;;
         Ret {| answer := rd_answer response_data;
                recommended_article := rd_recommended_article response_data;
                suggested_actions := rd_suggested_actions response_data;
                session_id := user_id;
                resp_confidence :=
                  confidence (rd_recommended_article response_data) |}
     end)
    (fun e =>
       emit (Logged ERROR ("Error processing question: " ++ str_exn e)) ;;
       Throw (HTTPException 500 (str_exn e))).

(** [@app.get("/session/{user_id}")] *)
Definition get_session_stats (user_id' : string) (current_user : TokenData)
  : prog event World SessionStatsResponse :=
  if decide (user_id current_user <> user_id')
  then Throw (HTTPException 403 "Access forbidden")
  else
    stats <- call (Called (GetSessionStats user_id'))
               (reading (fun w => session_stats (session_manager w) user_id')) ;;
    match stats with
    | None => Throw (HTTPException 404 "Session not found")
    | Some stats => Ret {| of_stats := stats |}
    end.

(** "The handler answers the question": the run makes the four calls
    reset, select_action with [training=False], _calculate_reward and
    add_interaction in this order, the user's log grows by that
    interaction, and a payload comes back under the user's session
    id. *)
Definition answers_in_order (request : QuestionRequest) (current_user : TokenData)
    (w : World) : Prop :=
  let uid := user_id current_user in
  let q := question request in
  let out := exec (ask_question request current_user) w in
  exists state article reward payload,
    sublist [Called (Reset q) None;
             Called (SelectAction state false) None;
             Called (CalculateReward article) None;
             Called (AddInteraction uid q article reward) None] (trace out) /\
    log_of (session_manager (final out)) uid =
      (log_of (session_manager w) uid ++
       [{| i_question := q; i_article := article;
           i_reward := reward; i_timestamp := clock w |}])%list /\
    result out = Returned payload /\
    session_id payload = uid.

(** "Stats or not found": a 404 when the user has no session, the
    stored stats when there is one. *)
Definition stats_or_not_found (user_id' : string) (current_user : TokenData)
    (w : World) : Prop :=
  let out := exec (get_session_stats user_id' current_user) w in
  match sessions (session_manager w) !! user_id' with
  | None => result out = Raised (HTTPException 404 "Session not found")
  | Some s => result out = Returned {| of_stats := stats s |}
  end.

(** The exceptions that the calls of a trace raised, in order. *)
Definition failures (tr : list event) : list exn :=
  omap (fun ev => match ev with
                  | Called _ raised => raised
                  | Logged _ _ => None
                  end) tr.

(** [@app.get("/health")] *)
Definition health_check : prog event World HealthResponse :=
  all_articles <- call (Called GetAllArticles)
                    (reading (fun w => get_all_articles (article_db w))) ;;
  sessions_len <- read (fun w => size (sessions (session_manager w))) ;;
  Ret {| status := "healthy";
         articles_count := length all_articles;
         sessions_count := sessions_len |}.
End WithCollaborators.

End Api.

(** ** main.py *)

Module Main.

(** The classes and modules that [main.py] imports and drives.  Objects
    are handles; what they hold (files, sessions, network weights, the
    attributes written after construction) lives in [Hidden].  Every
    constructor and method returns or raises, and may change [Hidden]. *)
Class Collaborators : Type := {
  Hidden : Type;
  Config : Type;
  EnvConfig : Type;
  ModelConfig : Type;
  ArticleDatabase : Type;
  Article : Type;
  UserDatabase : Type;
  SessionManager : Type;
  StateEncoder : Type;
  RecommendationEnv : Type;
  DQNAgent : Type;
  Pretrainer : Type;
  EvalResults : Type;
  ResponseGenerator : Type;
  RecommendationAPI : Type;
  FastAPI : Type;

  ARTICLES_PATH : Config -> string;
  EXCEL_PATH : Config -> string;
  SESSIONS_PATH : Config -> string;
  environment : Config -> EnvConfig;
  model : Config -> ModelConfig;
  api_host : Config -> string;
  api_port : Config -> Z;
  app : RecommendationAPI -> FastAPI;
  (** [len(session_manager.sessions)] *)
  sessions_len : SessionManager -> Hidden -> nat;

  new_Config : Hidden -> outcome Config * Hidden;
  new_ArticleDatabase : string -> string -> Hidden -> outcome ArticleDatabase * Hidden;
  get_all_articles : ArticleDatabase -> Hidden -> outcome (list Article) * Hidden;
  new_UserDatabase : Hidden -> outcome UserDatabase * Hidden;
  get_user :
    UserDatabase -> string -> Hidden -> outcome (option (gmap string string)) * Hidden;
  create_user : UserDatabase -> string -> string -> Hidden -> outcome bool * Hidden;
  new_SessionManager : string -> Hidden -> outcome SessionManager * Hidden;
  (** [from module import name] *)
  import_from : string -> string -> Hidden -> outcome unit * Hidden;
  new_StateEncoder : ArticleDatabase -> Hidden -> outcome StateEncoder * Hidden;
  get_state_dimension : StateEncoder -> Hidden -> outcome Z * Hidden;
  new_RecommendationEnv :
    ArticleDatabase -> StateEncoder -> EnvConfig -> Hidden ->
    outcome RecommendationEnv * Hidden;
  get_action_space_size : RecommendationEnv -> Hidden -> outcome Z * Hidden;
  (** [model.action_dim = n] and [model.state_dim = n] *)
  set_action_dim : ModelConfig -> Z -> Hidden -> outcome unit * Hidden;
  set_state_dim : ModelConfig -> Z -> Hidden -> outcome unit * Hidden;
  new_DQNAgent : Z -> Z -> ModelConfig -> Hidden -> outcome DQNAgent * Hidden;
  new_Pretrainer :
    RecommendationEnv -> DQNAgent -> ArticleDatabase -> Hidden ->
    outcome Pretrainer * Hidden;
  pretrain_with_supervised : Pretrainer -> Z -> Hidden -> outcome unit * Hidden;
  evaluate_pretraining : Pretrainer -> Hidden -> outcome EvalResults * Hidden;
  (** [f"{eval_results['accuracy']:.3f}"] *)
  accuracy_3f : EvalResults -> Hidden -> outcome string * Hidden;
  new_ResponseGenerator : ArticleDatabase -> Hidden -> outcome ResponseGenerator * Hidden;
  new_RecommendationAPI :
    ArticleDatabase -> SessionManager -> RecommendationEnv -> DQNAgent ->
    ResponseGenerator -> Hidden -> outcome RecommendationAPI * Hidden;
  (** [uvicorn.run(app, host=..., port=..., log_level=...)]: serves
      requests until the server stops, then returns; [Raised] stands for
      an instance of [Exception] leaving the call.  A server that never
      stops, and one whose start fails and ends the process through
      [sys.exit], are not outcomes of this type. *)
  uvicorn_run : FastAPI -> string -> Z -> string -> Hidden -> outcome unit * Hidden
}.

Inductive callee : Type :=
| NewConfig
| NewArticleDatabase (articles_path excel_path : string)
| GetAllArticles
| NewUserDatabase
| GetUser (username : string)
| CreateUser (username password : string)
| NewSessionManager (sessions_path : string)
| ImportFrom (module name : string)
| NewStateEncoder
| GetStateDimension
| NewRecommendationEnv
| GetActionSpaceSize
| SetActionDim (n : Z)
| SetStateDim (n : Z)
| NewDQNAgent (state_dim action_dim : Z)
| NewPretrainer
| PretrainWithSupervised (episodes : Z)
| EvaluatePretraining
| FormatAccuracy
| NewResponseGenerator
| NewRecommendationAPI
| UvicornRun (host : string) (port : Z).

Inductive event : Type :=
| Called (c : callee) (raised : option exn)
| Logged (l : level) (msg : string).

(** The calls made inside the [try] of the pretraining stage. *)
Definition pretraining_call (c : callee) : bool :=
  match c with
  | ImportFrom module _ => String.eqb module "training.pretrain"
  | NewPretrainer | PretrainWithSupervised _ | EvaluatePretraining
  | FormatAccuracy => true
  | _ => false
  end.



Definition is_serving (ev : event) : bool :=
  match ev with
  | Called (UvicornRun _ _) _ => true
  | _ => false
  end.



Definition is_error_log (ev : event) : bool :=
  match ev with
  | Logged ERROR _ => true
  | _ => false
  end.

Definition generator_built (ev : event) : bool :=
  match ev with
  | Called NewResponseGenerator None => true
  | _ => false
  end.

Definition api_called (ev : event) : bool :=
  match ev with
  | Called NewRecommendationAPI _ => true
  | _ => false
  end.

Definition api_built (ev : event) : bool :=
  match ev with
  | Called NewRecommendationAPI None => true
  | _ => false
  end.


Section WithCollaborators.
Context `{Collaborators} `{Rendering}.

(** The dict that [initialize_system] returns.  Its key [api_class]
    holds the class [RecommendationAPI] itself, which [main] calls as
    [new_RecommendationAPI]. *)
Record Components : Type := {
  c_config : Config;
  c_article_db : ArticleDatabase;
  c_user_db : UserDatabase;
  c_session_manager : SessionManager;
  c_state_encoder : StateEncoder;
  c_env : RecommendationEnv;
  c_agent : DQNAgent;
  c_response_generator : ResponseGenerator
}.

Definition info (msg : string) : prog event Hidden unit := emit (Logged INFO msg).
Definition warning (msg : string) : prog event Hidden unit := emit (Logged WARNING msg).
Definition error (msg : string) : prog event Hidden unit := emit (Logged ERROR msg).

Definition initialize_system : prog event Hidden (option Components) :=
  info "Initializing RL Recommendation System..." ;;
  try_except
    (config <- call (Called NewConfig) new_Config ;;
     info "Configuration loaded" ;;
     article_db <-
       call (Called (NewArticleDatabase (ARTICLES_PATH config) (EXCEL_PATH config)))
         (new_ArticleDatabase (ARTICLES_PATH config) (EXCEL_PATH config)) ;;
     articles <- call (Called GetAllArticles) (get_all_articles article_db) ;;
     info ("Loaded " ++ pretty (length articles) ++ " articles") ;;
     user_db <- call (Called NewUserDatabase) new_UserDatabase ;;
     admin <- call (Called (GetUser "admin")) (get_user user_db "admin") ;;
     (if UserDb.falsy admin
      then call (Called (CreateUser "admin" "admin"))
             (create_user user_db "admin" "admin") ;; Ret tt
      else Ret tt) ;;
     info "User database initialized" ;;
     match articles with
     | [] =>
         error "No articles available. System cannot start." ;;
         Ret None
     | _ :: _ =>
         session_manager <-
           call (Called (NewSessionManager (SESSIONS_PATH config)))
             (new_SessionManager (SESSIONS_PATH config)) ;;
         n_sessions <- read (sessions_len session_manager) ;;
         info ("Loaded " ++ pretty n_sessions ++ " existing sessions") ;;
         call (Called (ImportFrom "models.state_encoder" "StateEncoder"))
           (import_from "models.state_encoder" "StateEncoder") ;;
         call (Called (ImportFrom "rl_environment.env" "RecommendationEnv"))
           (import_from "rl_environment.env" "RecommendationEnv") ;;
         call (Called (ImportFrom "agents.dqn_agent" "DQNAgent"))
           (import_from "agents.dqn_agent" "DQNAgent") ;;
         call (Called (ImportFrom "models.response_generator" "ResponseGenerator"))
           (import_from "models.response_generator" "ResponseGenerator") ;;
         call (Called (ImportFrom "api.app" "RecommendationAPI"))
           (import_from "api.app" "RecommendationAPI") ;;
         state_encoder <- call (Called NewStateEncoder) (new_StateEncoder article_db) ;;
         state_dim <- call (Called GetStateDimension)
                        (get_state_dimension state_encoder) ;;
         info ("State encoder initialized with dimension: " ++ pretty state_dim) ;;
         env <- call (Called NewRecommendationEnv)
                  (new_RecommendationEnv article_db state_encoder
                     (environment config)) ;;
         action_dim <- call (Called GetActionSpaceSize) (get_action_space_size env) ;;
         info ("RL Environment initialized with " ++ pretty action_dim ++ " actions") ;;
         call (Called (SetActionDim action_dim))
           (set_action_dim (model config) action_dim) ;;
         call (Called (SetStateDim state_dim))
           (set_state_dim (model config) state_dim) ;;
         agent <- call (Called (NewDQNAgent state_dim action_dim))
                    (new_DQNAgent state_dim action_dim (model config)) ;;
         info "DQN Agent initialized" ;;
         try_except
           (call (Called (ImportFrom "training.pretrain" "Pretrainer"))
              (import_from "training.pretrain" "Pretrainer") ;;
            info "Starting pretraining..." ;;
            pretrainer <- call (Called NewPretrainer)
                            (new_Pretrainer env agent article_db) ;;
            call (Called (PretrainWithSupervised 500))
              (pretrain_with_supervised pretrainer 500) ;;
            eval_results <- call (Called EvaluatePretraining)
                              (evaluate_pretraining pretrainer) ;;
            accuracy <- call (Called FormatAccuracy) (accuracy_3f eval_results) ;;
            info ("Pretraining completed! Accuracy: " ++ accuracy))
           (fun e => warning ("Pretraining skipped: " ++ str_exn e)) ;;
         response_generator <- call (Called NewResponseGenerator)
                                 (new_ResponseGenerator article_db) ;;
         info "Response generator initialized" ;;
         Ret (Some {| c_config := config;
                      c_article_db := article_db;
                      c_user_db := user_db;
                      c_session_manager := session_manager;
                      c_state_encoder := state_encoder;
                      c_env := env;
                      c_agent := agent;
                      c_response_generator := response_generator |})
     end)
    (fun e =>
       error ("Failed to initialize system: " ++ str_exn e) ;;
       error (format_exc e) ;;
       Ret None).

(** Every pretraining call that raised is followed at once by the
    warning that names its exception and then by the construction of
    the response generator. *)
Fixpoint failures_handled (tr : list event) : Prop :=
  match tr with
  | [] => True
  | Called c (Some e) :: rest =>
      (if pretraining_call c then
         match rest with
         | Logged WARNING msg :: Called NewResponseGenerator _ :: _ =>
             msg = "Pretraining skipped: " ++ str_exn e
         | _ => False
         end
       else True) /\ failures_handled rest
  | _ :: rest => failures_handled rest
  end.

Definition url (config : Config) (path : string) : string :=
  "http://" ++ api_host config ++ ":" ++ pretty (api_port config) ++ path.

Definition main : prog event Hidden unit :=
  components <- initialize_system ;;
  match components with
  | None => error "System initialization failed. Exiting."
  | Some components =>
      try_except
        (api <- call (Called NewRecommendationAPI)
                  (new_RecommendationAPI
                     (c_article_db components) (c_session_manager components)
                     (c_env components) (c_agent components)
                     (c_response_generator components)) ;;
         info "Starting FastAPI server..." ;;
         info ("API will be available at: " ++ url (c_config components) "") ;;
         info ("API documentation: " ++ url (c_config components) "/docs") ;;
         info ("Chat UI: " ++ url (c_config components) "/chat") ;;
         call (Called (UvicornRun (api_host (c_config components))
                         (api_port (c_config components))))
           (uvicorn_run (app api) (api_host (c_config components))
              (api_port (c_config components)) "info"))
        (fun e =>
           error ("Failed to start server: " ++ str_exn e) ;;
           error (format_exc e))
  end.

End WithCollaborators.

End Main.

(** ** Small concrete instances *)

Module Demo.

Definition rendering : Rendering := {|
  str_exn e :=
    match e with
    | HTTPException code detail => pretty code ++ ": " ++ detail
    | Error cls msg => msg
    end;
  format_exc e :=
    match e with
    | HTTPException code detail => "HTTPException: " ++ detail
    | Error cls msg => cls ++ ": " ++ msg
    end
|}.

(** A stand-in for the learned policy: the state is the question itself,
    the agent picks the article whose number is the length of the question,
    every recommendation is scored 1. *)
Definition services : Api.Collaborators := {|
  Api.State := string;
  Api.Article := string;
  Api.Reward := Z;
  Api.View := string * Z;
  Api.Confidence := Z;
  Api.Hidden := unit;
  Api.reset q h := (Returned q, h);
  Api.select_action state training h := (Returned (Z.of_nat (String.length state)), h);
  Api._calculate_reward article h := (Returned 1%Z, h);
  Api.generate_answer q article h :=
    (Returned {| Api.rd_answer := "Read: " ++ article;
                 Api.rd_recommended_article := (article, 1%Z);
                 Api.rd_suggested_actions := [] |}, h);
  Api.confidence view := snd view;
  Api.mean rewards := (fold_right Z.add 0 rewards / Z.of_nat (length rewards))%Z;
  Api.truthy article := negb (String.eqb article EmptyString)
|}.

#[local] Existing Instance services.

(** Two articles, nobody has a session yet. *)
Definition world : Api.World := {|
  Api.article_db := {| Api.articles := [(4%Z, "network"); (7%Z, "storage")] |};
  Api.session_manager := Api.commit ∅;
  Api.clock := 1000;
  Api.hidden := tt
|}.

Definition alice : Api.TokenData := {| Api.user_id := "alice" |}.
Definition bob : Api.TokenData := {| Api.user_id := "bob" |}.

(** A startup environment in which every constructor and method returns,
    except that the corpus and the ending of [pretrain_with_supervised]
    are chosen by the caller.  The user database is the one of
    [auth/user_db.py] under the toy password scheme. *)
Definition startup (corpus : list string) (pretraining : outcome unit)
  : Main.Collaborators := {|
  Main.Hidden := UserDb.UserDatabase;
  Main.Config := unit;
  Main.EnvConfig := unit;
  Main.ModelConfig := unit;
  Main.ArticleDatabase := unit;
  Main.Article := string;
  Main.UserDatabase := unit;
  Main.SessionManager := unit;
  Main.StateEncoder := unit;
  Main.RecommendationEnv := unit;
  Main.DQNAgent := unit;
  Main.Pretrainer := unit;
  Main.EvalResults := unit;
  Main.ResponseGenerator := unit;
  Main.RecommendationAPI := unit;
  Main.FastAPI := unit;
  Main.ARTICLES_PATH _ := "data/articles.json";
  Main.EXCEL_PATH _ := "data/articles.xlsx";
  Main.SESSIONS_PATH _ := "data/sessions.json";
  Main.environment _ := tt;
  Main.model _ := tt;
  Main.api_host _ := "0.0.0.0";
  Main.api_port _ := 8000%Z;
  Main.app _ := tt;
  Main.sessions_len _ _ := 0;
  Main.new_Config h := (Returned tt, h);
  Main.new_ArticleDatabase _ _ h := (Returned tt, h);
  Main.get_all_articles _ h := (Returned corpus, h);
  Main.new_UserDatabase h := (Returned tt, UserDb.__init__ (UserDb.users_file h));
  Main.get_user _ username h := (Returned (UserDb.get_user h username), h);
  Main.create_user _ username password h :=
    @UserDb.create_user UserDb.toy_context h username password "salt" None;
  Main.new_SessionManager _ h := (Returned tt, h);
  Main.import_from _ _ h := (Returned tt, h);
  Main.new_StateEncoder _ h := (Returned tt, h);
  Main.get_state_dimension _ h := (Returned 16%Z, h);
  Main.new_RecommendationEnv _ _ _ h := (Returned tt, h);
  Main.get_action_space_size _ h := (Returned (Z.of_nat (length corpus)), h);
  Main.set_action_dim _ _ h := (Returned tt, h);
  Main.set_state_dim _ _ h := (Returned tt, h);
  Main.new_DQNAgent _ _ _ h := (Returned tt, h);
  Main.new_Pretrainer _ _ _ h := (Returned tt, h);
  Main.pretrain_with_supervised _ _ h := (pretraining, h);
  Main.evaluate_pretraining _ h := (Returned tt, h);
  Main.accuracy_3f _ h := (Returned "0.750", h);
  Main.new_ResponseGenerator _ h := (Returned tt, h);
  Main.new_RecommendationAPI _ _ _ _ _ h := (Returned tt, h);
  Main.uvicorn_run _ _ _ _ h := (Returned tt, h)
|}.

Definition cold_disk : UserDb.UserDatabase := UserDb.__init__ UserDb.Missing.

End Demo.

(** ** api/app.py: accounts *)

Module Accounts.

(** [fastapi.security.OAuth2PasswordRequestForm], by the fields the
    handlers read. *)
Record OAuth2PasswordRequestForm : Type := {
  username : string;
  password : string
}.

(** [security.create_access_token(data={"sub": username})]: signs a token
    for the subject; the key and the clock it uses are behind [Vault]. *)
Class Security : Type := {
  Vault : Type;
  create_access_token : string -> Vault -> outcome string * Vault
}.

Record Message : Type := { message : string }.

Record Token : Type := { access_token : string; token_type : string }.

Record UserList : Type := { users : list string; total : nat }.

Inductive callee : Type :=
| CreateUser (username password : string)
| AuthenticateUser (username password : string)
| CreateAccessToken (sub : string).

Inductive event : Type :=
| Called (c : callee) (raised : option exn).

Section WithSecurity.
Context `{UserDb.CryptContext} `{Security}.

(** What the account handlers reach through [self]. *)
Record World : Type := {
  user_db : UserDb.UserDatabase;
  vault : Vault
}.


(** Lines 25-27 of [RecommendationAPI.__init__] (and 34-36 of
    [initialize_system]): load the user database and seed the demo
    account.  An exception of [create_user] is not caught here. *)
Definition init_user_db (f : UserDb.file) (salt : string)
    (fault : option UserDb.write_fault) : outcome unit * UserDb.UserDatabase :=
  let user_db := UserDb.__init__ f in
  if UserDb.falsy (UserDb.get_user user_db "admin")
  then match UserDb.create_user user_db "admin" "admin" salt fault with
       | (Returned _, db) => (Returned tt, db)
       | (Raised e, db) => (Raised e, db)
       end
  else (Returned tt, user_db).

(** [@app.post("/register")]; [salt] is the randomness the hasher draws,
    [fault] what the file system does to the write.  The handler has no
    [try]: an exception of [create_user] leaves it. *)
Definition register (form_data : OAuth2PasswordRequestForm) (salt : string)
    (fault : option UserDb.write_fault) : prog event World Message :=
  success <- call (Called (CreateUser (username form_data) (password form_data)))
               (fun w =>
                  let '(created, db) :=
                    UserDb.create_user (user_db w) (username form_data)
                      (password form_data) salt fault in
                  (created, {| user_db := db; vault := vault w |})) ;;
  if success : bool then Ret {| message := "User created successfully" |}
  else Throw (HTTPException 400 "Username already exists").

(** [@app.post("/login")] *)
Definition login (form_data : OAuth2PasswordRequestForm) : prog event World Token :=
  authenticated <-
    call (Called (AuthenticateUser (username form_data) (password form_data)))
      (fun w =>
         (UserDb.authenticate_user (user_db w) (username form_data)
            (password form_data), w)) ;;
  if authenticated : bool then
    token <- call (Called (CreateAccessToken (username form_data)))
               (fun w =>
                  let '(o, v) := create_access_token (username form_data) (vault w) in
                  (o, {| user_db := user_db w; vault := v |})) ;;
    Ret {| access_token := token; token_type := "bearer" |}
  else Throw (HTTPException 401 "Invalid credentials").

(** [@app.get("/users")], behind [get_current_user].  The names come in
    the order of the map, not in the insertion order of the dict. *)
Definition get_all_users : prog event World UserList :=
  usernames <- read (fun w => (map_to_list (UserDb.users (user_db w))).*1) ;;
  Ret {| users := usernames; total := length usernames |}.
End WithSecurity.

End Accounts.

(** ** main.py: reading a startup trace *)

Module StartupLog.
Import Main.

(** Calls after which startup cannot end in serving: every call that is
    neither part of the pretraining stage nor [uvicorn.run] itself. *)
Definition fatal_call (c : callee) : bool :=
  match c with
  | UvicornRun _ _ => false
  | _ => negb (pretraining_call c)
  end.

Definition fatal (ev : event) : bool :=
  match ev with
  | Called c (Some _) => fatal_call c
  | _ => false
  end.

Definition is_agent_construction (ev : event) : bool :=
  match ev with
  | Called (NewDQNAgent _ _) _ => true
  | _ => false
  end.

Section WithRendering.
Context `{Rendering}.

(** The log line of the [except] clause that catches a failure of [c]. *)
Definition failure_log (c : callee) (e : exn) : event :=
  if pretraining_call c then Logged WARNING ("Pretraining skipped: " ++ str_exn e)
  else match c with
       | NewRecommendationAPI | UvicornRun _ _ =>
           Logged ERROR ("Failed to start server: " ++ str_exn e)
       | _ => Logged ERROR ("Failed to initialize system: " ++ str_exn e)
       end.

(** Every call that raised is followed at once by its log line. *)
Fixpoint failures_logged (tr : list event) : Prop :=
  match tr with
  | [] => True
  | Called c (Some e) :: rest =>
      head rest = Some (failure_log c e) /\ failures_logged rest
  | _ :: rest => failures_logged rest
  end.
End WithRendering.

(** Wherever the agent is constructed, the two events before it, most
    recent first in [history], are the writes of the same dimensions to
    [config.model]. *)
Fixpoint agent_dims_written (history tr : list event) : Prop :=
  match tr with
  | [] => True
  | ev :: rest =>
      match ev with
      | Called (NewDQNAgent state_dim action_dim) _ =>
          history !! 0 = Some (Called (SetStateDim state_dim) None) /\
          history !! 1 = Some (Called (SetActionDim action_dim) None)
      | _ => True
      end /\ agent_dims_written (ev :: history) rest
  end.

End StartupLog.

(** ** More concrete instances *)

Module Samples.

(** Tokens are the subject with a prefix; the vault counts the tokens
    issued. *)
Definition security : Accounts.Security := {|
  Accounts.Vault := nat;
  Accounts.create_access_token sub issued := (Returned ("token-for-" ++ sub), S issued)
|}.

(** As [Demo.services], with an answer generator that always raises. *)
Definition mute_services : Api.Collaborators := {|
  Api.State := string;
  Api.Article := string;
  Api.Reward := Z;
  Api.View := string * Z;
  Api.Confidence := Z;
  Api.Hidden := unit;
  Api.reset q h := (Returned q, h);
  Api.select_action state training h := (Returned (Z.of_nat (String.length state)), h);
  Api._calculate_reward article h := (Returned 1%Z, h);
  Api.generate_answer q article h := (Raised (Error "KeyError" "'summary'"), h);
  Api.confidence view := snd view;
  Api.mean rewards := (fold_right Z.add 0 rewards / Z.of_nat (length rewards))%Z;
  Api.truthy article := negb (String.eqb article EmptyString)
|}.

Definition mute_world : @Api.World mute_services :=
  @Api.Build_World mute_services
    (@Api.Build_ArticleDatabase mute_services [(4%Z, "network"); (7%Z, "storage")])
    (@Api.commit mute_services ∅) 1000 tt.

(** As [Demo.world], with an empty article stored under number 0, the
    number picked for the empty question. *)
Definition blank_world : @Api.World Demo.services :=
  @Api.Build_World Demo.services
    (@Api.Build_ArticleDatabase Demo.services [(0%Z, EmptyString); (7%Z, "storage")])
    (@Api.commit Demo.services ∅) 1000 tt.

(** A startup environment with a one-article corpus in which every call
    returns, except that the endings of the session manager's constructor,
    of the API's constructor and of [uvicorn.run] are chosen by the
    caller. *)
Definition startup (sessions api serving : outcome unit) : Main.Collaborators := {|
  Main.Hidden := unit;
  Main.Config := unit;
  Main.EnvConfig := unit;
  Main.ModelConfig := unit;
  Main.ArticleDatabase := unit;
  Main.Article := string;
  Main.UserDatabase := unit;
  Main.SessionManager := unit;
  Main.StateEncoder := unit;
  Main.RecommendationEnv := unit;
  Main.DQNAgent := unit;
  Main.Pretrainer := unit;
  Main.EvalResults := unit;
  Main.ResponseGenerator := unit;
  Main.RecommendationAPI := unit;
  Main.FastAPI := unit;
  Main.ARTICLES_PATH _ := "data/articles.json";
  Main.EXCEL_PATH _ := "data/articles.xlsx";
  Main.SESSIONS_PATH _ := "data/sessions.json";
  Main.environment _ := tt;
  Main.model _ := tt;
  Main.api_host _ := "127.0.0.1";
  Main.api_port _ := 8080%Z;
  Main.app _ := tt;
  Main.sessions_len _ _ := 3;
  Main.new_Config h := (Returned tt, h);
  Main.new_ArticleDatabase _ _ h := (Returned tt, h);
  Main.get_all_articles _ h := (Returned ["network"], h);
  Main.new_UserDatabase h := (Returned tt, h);
  Main.get_user _ _ h := (Returned (Some {[ "username" := "admin" ]}), h);
  Main.create_user _ _ _ h := (Returned false, h);
  Main.new_SessionManager _ h := (sessions, h);
  Main.import_from _ _ h := (Returned tt, h);
  Main.new_StateEncoder _ h := (Returned tt, h);
  Main.get_state_dimension _ h := (Returned 32%Z, h);
  Main.new_RecommendationEnv _ _ _ h := (Returned tt, h);
  Main.get_action_space_size _ h := (Returned 1%Z, h);
  Main.set_action_dim _ _ h := (Returned tt, h);
  Main.set_state_dim _ _ h := (Returned tt, h);
  Main.new_DQNAgent _ _ _ h := (Returned tt, h);
  Main.new_Pretrainer _ _ _ h := (Returned tt, h);
  Main.pretrain_with_supervised _ _ h := (Returned tt, h);
  Main.evaluate_pretraining _ h := (Returned tt, h);
  Main.accuracy_3f _ h := (Returned "1.000", h);
  Main.new_ResponseGenerator _ h := (Returned tt, h);
  Main.new_RecommendationAPI _ _ _ _ _ h := (api, h);
  Main.uvicorn_run _ _ _ _ h := (serving, h)
|}.

(** A user file holding one complete record, one record without a hash
    and one empty record. *)
Definition patchy_file : UserDb.file :=
  UserDb.Json
    (<["dima" := {[ "username" := "dima"; "hashed_password" := "$s3cret" ]}]>
       (<["ghost" := {[ "username" := "ghost" ]}]>
          (<["blank" := ∅]> ∅))).

End Samples.

(** * Properties *)

(** ** The user database *)

Section UserDatabaseFacts.
Import UserDb.
Context `{CryptContext}.

Lemma create_user_taken (self : UserDatabase) (username password salt : string)
    (fault : option write_fault) :
  is_Some (users self !! username) ->
  create_user self username password salt fault = (Returned false, self).
Proof. intros [entry Hentry]. unfold create_user. by rewrite Hentry. Qed.

Lemma create_user_unhashed (self : UserDatabase) (username password salt : string)
    (fault : option write_fault) (e : exn) :
  users self !! username = None ->
  pwd_hash password salt = Raised e ->
  create_user self username password salt fault = (Raised e, self).
Proof. intros Hfree Hhash. unfold create_user. by rewrite Hfree, Hhash. Qed.

Lemma create_user_fresh (self : UserDatabase) (username password salt hashed : string)
    (fault : option write_fault) :
  users self !! username = None ->
  pwd_hash password salt = Returned hashed ->
  create_user self username password salt fault =
    let users' := <[username := {[ "username" := username;
                                   "hashed_password" := hashed ]}]> (users self) in
    match fault with
    | None => (Returned true, {| users := users'; users_file := Json users' |})
    | Some (OpenFails e) => (Raised e, {| users := users'; users_file := users_file self |})
    | Some (DumpFails e) => (Raised e, {| users := users'; users_file := Malformed |})
    end.
Proof.
  intros Hfree Hhash. unfold create_user. rewrite Hfree, Hhash.
  by destruct fault as [[e|e]|].
Qed.

(** The user map after [create_user] on a free name whose password was
    hashed, whatever became of the write. *)
Lemma create_user_fresh_users
    (self : UserDatabase) (username password salt hashed : string)
    (fault : option write_fault) :
  users self !! username = None ->
  pwd_hash password salt = Returned hashed ->
  users (snd (create_user self username password salt fault)) =
    <[username := {[ "username" := username; "hashed_password" := hashed ]}]>
      (users self).
Proof.
  intros Hfree Hhash. rewrite (create_user_fresh _ _ _ _ hashed) by done.
  by destruct fault as [[e|e]|].
Qed.

Lemma create_user_others (self : UserDatabase) (username password salt other : string)
    (fault : option write_fault) :
  other <> username ->
  users (snd (create_user self username password salt fault)) !! other =
    users self !! other.
Proof.
  intros Hother. unfold create_user.
  destruct (users self !! username); [done|].
  destruct (pwd_hash password salt); [|done].
  destruct fault as [[e|e]|]; cbn; by rewrite lookup_insert_ne.
Qed.

Lemma authenticate_user_absent (self : UserDatabase) (username password : string) :
  users self !! username = None ->
  authenticate_user self username password = Returned false.
Proof. intros Habsent. unfold authenticate_user, get_user. by rewrite Habsent. Qed.

Lemma entry_not_empty (username hashed : string) :
  ({[ "username" := username; "hashed_password" := hashed ]} : gmap string string) <> ∅.
Proof.
  intros Hempty.
  assert (Hlook : ({[ "username" := username; "hashed_password" := hashed ]}
                     : gmap string string) !! "username" = Some username)
    by apply lookup_insert_eq.
  rewrite Hempty in Hlook. by rewrite lookup_empty in Hlook.
Qed.

Lemma entry_hashed_password (username hashed : string) :
  ({[ "username" := username; "hashed_password" := hashed ]} : gmap string string)
    !! "hashed_password" = Some hashed.
Proof. rewrite lookup_insert_ne by done. apply lookup_insert_eq. Qed.

Lemma authenticate_user_known
    (self : UserDatabase) (username password hashed : string)
    (user : gmap string string) :
  users self !! username = Some user ->
  user <> ∅ ->
  user !! "hashed_password" = Some hashed ->
  authenticate_user self username password = pwd_verify password hashed.
Proof.
  intros Huser Hfull Hhashed. unfold authenticate_user, get_user.
  rewrite Huser. cbn [falsy mbind option_bind].
  rewrite bool_decide_eq_false_2 by done. by rewrite Hhashed.
Qed.

Lemma authenticate_after_create
    (self : UserDatabase) (u p salt hashed q : string) (fault : option write_fault) :
  users self !! u = None ->
  pwd_hash p salt = Returned hashed ->
  authenticate_user (snd (create_user self u p salt fault)) u q =
    pwd_verify q hashed.
Proof.
  intros Hfree Hhash.
  apply (authenticate_user_known _ u q hashed
           {[ "username" := u; "hashed_password" := hashed ]}).
  - rewrite (create_user_fresh_users _ _ _ _ hashed) by done. apply lookup_insert_eq.
  - apply entry_not_empty.
  - apply entry_hashed_password.
Qed.



(** C10.  Credential round trip, for a password scheme whose [verify]
    accepts every hash that [hash] made of the same password.  On a
    database without [u], [create_user u p] returns [True] whenever the
    password is hashed and the file is written; after a [create_user u p]
    that returned [True], [authenticate_user u p] returns [True]; and
    [authenticate_user u' p'] returns [False] for every [u'] absent from
    the database, before the registration as after it. *)
Theorem credential_round_trip
    (verify_hash : forall password salt hashed,
        pwd_hash password salt = Returned hashed ->
        pwd_verify password hashed = Returned true)
    (self : UserDatabase) (u p salt : string) (fault : option write_fault)
    (fresh : users self !! u = None) :
  let '(created, self') := create_user self u p salt fault in
  (forall hashed, pwd_hash p salt = Returned hashed -> fault = None ->
                  created = Returned true) /\
  (created = Returned true -> authenticate_user self' u p = Returned true) /\
  (forall u' p', users self' !! u' = None ->
                 authenticate_user self' u' p' = Returned false) /\
  (forall u' p', users self !! u' = None ->
                 authenticate_user self u' p' = Returned false).
Proof.
  pose proof (authenticate_after_create self u p salt) as Hlogin.
  destruct (pwd_hash p salt) as [hashed|e] eqn:Hhash.
  - specialize (Hlogin hashed p fault fresh eq_refl).
    rewrite (verify_hash p salt hashed Hhash) in Hlogin.
    rewrite (create_user_fresh _ _ _ _ hashed) in * by done.
    destruct fault as [[e|e]|]; cbn in *;
      (split_and!;
       [ try done | try done | intros u' p' Habsent; by apply authenticate_user_absent
       | intros u' p' Habsent; by apply authenticate_user_absent ]).
  - rewrite (create_user_unhashed _ _ _ _ _ e) by done.
    split_and!; [done | done | |];
      intros u' p' Habsent; by apply authenticate_user_absent.
Qed.
End UserDatabaseFacts.

(** The toy scheme verifies the hashes it makes. *)
Lemma toy_verify_hash (password salt hashed : string) :
  @UserDb.pwd_hash UserDb.toy_context password salt = Returned hashed ->
  @UserDb.pwd_verify UserDb.toy_context password hashed = Returned true.
Proof.
  intros Hhash. injection Hhash as <-. cbn. by rewrite String.eqb_refl.
Qed.



Lemma credential_round_trip_witness :
  let self := UserDb.__init__ UserDb.Missing in
  UserDb.users self !! "dima" = None /\
  let '(created, self') :=
    @UserDb.create_user UserDb.toy_context self "dima" "s3cret" "NaCl" None in
  created = Returned true /\
  @UserDb.authenticate_user UserDb.toy_context self' "dima" "s3cret" = Returned true.
Proof.
  split; [reflexivity |].
  pose proof (@credential_round_trip UserDb.toy_context toy_verify_hash
                (UserDb.__init__ UserDb.Missing) "dima" "s3cret" "NaCl" None eq_refl)
    as Htrip.
  cbn in Htrip. destruct Htrip as (Hcreated & Hlogin & _).
  split; [exact (Hcreated _ eq_refl eq_refl) | exact (Hlogin (Hcreated _ eq_refl eq_refl))].
Defined.

(** ** Executing programs *)

Section ExecFacts.
Context {E S : Type}.

Lemma exec_bind {A B} (m : prog E S A) (f : A -> prog E S B) (s : S) :
  exec (bind m f) s =
    match result (exec m s) with
    | Returned a => after (trace (exec m s)) (exec (f a) (final (exec m s)))
    | Raised e => Run (Raised e) (final (exec m s)) (trace (exec m s))
    end.
Proof.
  revert s. induction m as [a|e|ev k IH|k IH|X ev op k IH]; intros s; cbn.
  - by destruct (exec (f a) s).
  - done.
  - rewrite IH. destruct (result (exec k s)); done.
  - apply IH.
  - destruct (op s) as [o s']. rewrite IH. cbn.
    destruct (result (exec (k o) s')); done.
Qed.

Lemma exec_try_except {A} (body : prog E S A) (handler : exn -> prog E S A) (s : S) :
  exec (try_except body handler) s =
    match result (exec body s) with
    | Returned a => exec body s
    | Raised e => after (trace (exec body s)) (exec (handler e) (final (exec body s)))
    end.
Proof.
  revert s. induction body as [a|e|ev k IH|k IH|X ev op k IH]; intros s; cbn.
  - done.
  - by destruct (exec (handler e) s).
  - rewrite IH. destruct (result (exec k s)); done.
  - apply IH.
  - destruct (op s) as [o s']. rewrite IH. cbn.
    destruct (result (exec (k o) s')); done.
Qed.
End ExecFacts.

(** ** The request handlers *)

Section ApiFacts.
Import Api.
Context `{Collaborators} `{Rendering}.

Lemma log_of_create_session (sm : SessionManager) (now : nat) (uid uid' : string) :
  log_of (create_session sm now uid) uid' = log_of sm uid'.
Proof.
  unfold log_of, create_session.
  destruct (sessions sm !! uid) as [s|] eqn:Hs; [done|]. cbn.
  destruct (decide (uid = uid')) as [->|Hne].
  - rewrite lookup_insert_eq, Hs. done.
  - by rewrite lookup_insert_ne.
Qed.

Lemma create_session_has (sm : SessionManager) (now : nat) (uid : string) :
  is_Some (sessions (create_session sm now uid) !! uid).
Proof.
  unfold create_session.
  destruct (sessions sm !! uid) as [s|] eqn:Hs; [by rewrite Hs|].
  cbn. rewrite lookup_insert_eq. eauto.
Qed.

Lemma create_session_again (sm : SessionManager) (now now' : nat) (uid : string) :
  create_session (create_session sm now uid) now' uid = create_session sm now uid.
Proof.
  destruct (create_session_has sm now uid) as [s Hs].
  unfold create_session at 1. by rewrite Hs.
Qed.

Lemma create_session_known (sm : SessionManager) (now : nat) (uid : string) :
  is_Some (sessions sm !! uid) -> create_session sm now uid = sm.
Proof. intros [s Hs]. unfold create_session. by rewrite Hs. Qed.

Lemma log_of_add_interaction
    (sm : SessionManager) (now : nat) (uid q : string) (a : Article) (r : Reward) :
  log_of (add_interaction sm now uid q a r) uid =
    (log_of sm uid ++ [{| i_question := q; i_article := a;
                          i_reward := r; i_timestamp := now |}])%list.
Proof.
  unfold add_interaction.
  destruct (create_session_has sm now uid) as [s Hs]. rewrite Hs.
  unfold log_of at 1. cbn. rewrite lookup_insert_eq. cbn.
  rewrite <- (log_of_create_session sm now uid uid).
  unfold log_of. by rewrite Hs.
Qed.

Lemma log_of_add_interaction_other
    (sm : SessionManager) (now : nat) (uid uid' q : string) (a : Article) (r : Reward) :
  uid <> uid' ->
  log_of (add_interaction sm now uid q a r) uid' = log_of sm uid'.
Proof.
  intros Hne. unfold add_interaction.
  destruct (create_session_has sm now uid) as [s Hs]. rewrite Hs.
  unfold log_of at 1. cbn. rewrite lookup_insert_ne by done.
  apply (log_of_create_session sm now uid uid').
Qed.

Lemma add_interaction_after_create
    (sm : SessionManager) (now : nat) (uid q : string) (a : Article) (r : Reward) :
  add_interaction (create_session sm now uid) now uid q a r =
    add_interaction sm now uid q a r.
Proof. unfold add_interaction. by rewrite create_session_again. Qed.

(** The session store as [ask_question] leaves it on the path that
    records an interaction. *)
Lemma recorded_session_manager
    (sm : SessionManager) (now : nat) (uid q : string) (a : Article) (r : Reward) :
  add_interaction
    (if bool_decide (is_Some (sessions sm !! uid)) then sm
     else create_session sm now uid) now uid q a r =
    add_interaction sm now uid q a r.
Proof.
  case_bool_decide; [done|]. apply add_interaction_after_create.
Qed.

(** C1, amended.  For an authenticated question request on which [reset],
    [select_action], [_calculate_reward] and [generate_answer] return
    and the selected action maps to an article that is truthy (not
    empty), [ask_question] makes
    exactly these calls in this order: [create_session] when the user has
    no session yet, then [reset] on the question, [select_action] on that
    state with [training=False], the article lookup, [_calculate_reward]
    on the article, [add_interaction] with the user, question, article
    and reward, and [generate_answer].  It returns the payload built from
    the generated answer, with its recommended article and confidence and
    the user id as session id, and the user's session log has grown by
    exactly that interaction while other users' logs are as before. *)
Theorem ask_question_composes
    (request : QuestionRequest) (current_user : TokenData) (w : World)
    (state : State) (article_id : Z) (article : Article) (reward : Reward)
    (response_data : ResponseData View) (h1 h2 h3 h4 : Hidden)
    (Hreset : reset (question request) (hidden w) = (Returned state, h1))
    (Hselect : select_action state false h1 = (Returned article_id, h2))
    (Hfound : get_article (article_db w) article_id = Some article)
    (Htruthy : truthy article = true)
    (Hscore : _calculate_reward article h2 = (Returned reward, h3))
    (Hanswer : generate_answer (question request) article h3
               = (Returned response_data, h4)) :
  let uid := user_id current_user in
  let q := question request in
  let out := exec (ask_question request current_user) w in
  answers_in_order request current_user w /\
  result out =
    Returned {| answer := rd_answer response_data;
                recommended_article := rd_recommended_article response_data;
                suggested_actions := rd_suggested_actions response_data;
                session_id := uid;
                resp_confidence :=
                  confidence (rd_recommended_article response_data) |} /\
  trace out =
    ((if bool_decide (is_Some (sessions (session_manager w) !! uid)) then []
      else [Called (CreateSession uid) None]) ++
     [Called (Reset q) None;
      Called (SelectAction state false) None;
      Called (GetArticle article_id) None;
      Called (CalculateReward article) None;
      Called (AddInteraction uid q article reward) None;
      Called (GenerateAnswer q article) None])%list /\
  session_manager (final out) =
    add_interaction (session_manager w) (clock w) uid q article reward /\
  log_of (session_manager (final out)) uid =
    (log_of (session_manager w) uid ++
     [{| i_question := q; i_article := article;
         i_reward := reward; i_timestamp := clock w |}])%list /\
  (forall other, other <> uid ->
     log_of (session_manager (final out)) other = log_of (session_manager w) other) /\
  article_db (final out) = article_db w.
Proof.
  intros uid q out.
  assert (Hout : out =
    Run (Returned {| answer := rd_answer response_data;
                     recommended_article := rd_recommended_article response_data;
                     suggested_actions := rd_suggested_actions response_data;
                     session_id := uid;
                     resp_confidence :=
                       confidence (rd_recommended_article response_data) |})
        {| article_db := article_db w;
           session_manager :=
             add_interaction
               (if bool_decide (is_Some (sessions (session_manager w) !! uid))
                then session_manager w
                else create_session (session_manager w) (clock w) uid)
               (clock w) uid q article reward;
           clock := clock w; hidden := h4 |}
        ((if bool_decide (is_Some (sessions (session_manager w) !! uid)) then []
          else [Called (CreateSession uid) None]) ++
         [Called (Reset q) None;
          Called (SelectAction state false) None;
          Called (GetArticle article_id) None;
          Called (CalculateReward article) None;
          Called (AddInteraction uid q article reward) None;
          Called (GenerateAnswer q article) None])%list).
  { subst out uid q. cbv [ask_question call read emit]. cbn.
    destruct (bool_decide (is_Some (sessions (session_manager w) !! user_id current_user)));
      cbn; unfold with_hidden; cbn;
      rewrite Hreset; cbn; rewrite Hselect; cbn; rewrite Hfound; cbn;
      rewrite Htruthy; cbn; rewrite Hscore; cbn; rewrite Hanswer; reflexivity. }
  assert (Hlog : log_of (session_manager (final out)) uid =
            (log_of (session_manager w) uid ++
             [{| i_question := q; i_article := article;
                 i_reward := reward; i_timestamp := clock w |}])%list).
  { rewrite Hout. cbn [final session_manager].
    rewrite recorded_session_manager. apply log_of_add_interaction. }
  split.
  { exists state, article, reward. eexists. fold out.
    split_and!; [ | exact Hlog | by rewrite Hout | done ].
    rewrite Hout. cbn [trace]. apply sublist_inserts_l.
    do 2 apply sublist_skip. apply sublist_cons.
    do 2 apply sublist_skip. apply sublist_nil_l. }
  split_and!; [by rewrite Hout | by rewrite Hout | | exact Hlog | | by rewrite Hout].
  - rewrite Hout. cbn [final session_manager]. apply recorded_session_manager.
  - intros other Hother. rewrite Hout. cbn [final session_manager].
    rewrite recorded_session_manager. by apply log_of_add_interaction_other.
Qed.

(** C4, what the code does.  When the selected action maps to no article,
    the [HTTPException(404)] that [ask_question] raises inside its [try]
    is caught by its own [except Exception] and re-raised with status 500,
    the 404 surviving only inside the detail text.  Nothing is scored or
    recorded. *)
Theorem missing_article_surfaces_as_500
    (request : QuestionRequest) (current_user : TokenData) (w : World)
    (state : State) (article_id : Z) (h1 h2 : Hidden)
    (Hreset : reset (question request) (hidden w) = (Returned state, h1))
    (Hselect : select_action state false h1 = (Returned article_id, h2))
    (Hmissing : get_article (article_db w) article_id = None) :
  let out := exec (ask_question request current_user) w in
  result out =
    Raised (HTTPException 500 (str_exn (HTTPException 404 "Article not found"))) /\
  result out <> Raised (HTTPException 404 "Article not found") /\
  log_of (session_manager (final out)) (user_id current_user) =
    log_of (session_manager w) (user_id current_user).
Proof.
  intros out. subst out. cbv [ask_question call read emit]. cbn.
  destruct (bool_decide (is_Some (sessions (session_manager w) !! user_id current_user)));
    cbn; unfold with_hidden; cbn;
    rewrite Hreset; cbn; rewrite Hselect; cbn; rewrite Hmissing; cbn;
    (split_and!; [done | discriminate | ]); [done |].
  apply log_of_create_session.
Qed.

(** C5, amended.  On a request whose authenticated user is the user asked
    about, [get_session_stats] answers 404 "Session not found" when that
    user has no recorded session and the stored stats (count, average
    reward, last activity) when there is one; the stores are left as they
    were. *)
Theorem owner_gets_stats_or_not_found
    (user_id' : string) (current_user : TokenData) (w : World)
    (Howner : user_id current_user = user_id') :
  stats_or_not_found user_id' current_user w /\
  final (exec (get_session_stats user_id' current_user) w) = w.
Proof.
  unfold stats_or_not_found, get_session_stats.
  rewrite decide_False by (intros Hne; by apply Hne).
  cbv [call read]. cbn. unfold session_stats.
  destruct (sessions (session_manager w) !! user_id') as [s|]; cbn; done.
Qed.

(** C7.  [health_check] returns status "healthy" with the number of
    articles in the article store and the number of sessions in the
    session store, and leaves the whole state, both stores included,
    as it found it. *)
Theorem health_check_counts (w : World) :
  let out := exec health_check w in
  result out =
    Returned {| status := "healthy";
                articles_count := length (articles (article_db w));
                sessions_count := size (sessions (session_manager w)) |} /\
  final out = w.
Proof.
  cbv [health_check call read]. cbn. unfold get_all_articles.
  by rewrite length_fmap.
Qed.

(** C8.  When the authenticated user is not the user asked about,
    [get_session_stats] raises 403 "Access forbidden" without making any
    call; its response is therefore the same in any two worlds, whatever
    sessions they hold. *)
Theorem foreign_stats_forbidden
    (user_id' : string) (current_user : TokenData) (w1 w2 : World)
    (Hforeign : user_id current_user <> user_id') :
  result (exec (get_session_stats user_id' current_user) w1) =
    Raised (HTTPException 403 "Access forbidden") /\
  result (exec (get_session_stats user_id' current_user) w1) =
    result (exec (get_session_stats user_id' current_user) w2) /\
  trace (exec (get_session_stats user_id' current_user) w1) = [] /\
  final (exec (get_session_stats user_id' current_user) w1) = w1.
Proof.
  unfold get_session_stats. rewrite decide_True by done. done.
Qed.
End ApiFacts.

Section ApiExamples.
Existing Instance Demo.services.
Existing Instance Demo.rendering.

Lemma ask_question_composes_witness :
let request := {| Api.question := "storage" |} in
let out := exec (Api.ask_question request Demo.alice) Demo.world in
Api.answers_in_order request Demo.alice Demo.world /\
Api.log_of (Api.session_manager (final out)) "alice" =
  [{| Api.i_question := "storage"; Api.i_article := "storage";
      Api.i_reward := 1%Z; Api.i_timestamp := 1000 |}] /\
trace out =
  [Api.Called (Api.CreateSession "alice") None;
   Api.Called (Api.Reset "storage") None;
   Api.Called (Api.SelectAction "storage" false) None;
   Api.Called (Api.GetArticle 7) None;
   Api.Called (Api.CalculateReward "storage") None;
   Api.Called (Api.AddInteraction "alice" "storage" "storage" 1%Z) None;
   Api.Called (Api.GenerateAnswer "storage" "storage") None].
Proof.
pose proof (@ask_question_composes Demo.services Demo.rendering
              {| Api.question := "storage" |} Demo.alice Demo.world
              "storage" 7%Z "storage" 1%Z
              {| Api.rd_answer := "Read: storage";
                 Api.rd_recommended_article := ("storage", 1%Z);
                 Api.rd_suggested_actions := [] |}
              tt tt tt tt eq_refl eq_refl eq_refl eq_refl eq_refl eq_refl)
  as (Hanswers & _ & Htrace & _ & Hlog & _).
split_and!; [exact Hanswers | exact Hlog | exact Htrace].
Defined.

(** C1, as stated, fails: a question for which the agent picks an action
  that maps to no article.  The handler calls [reset], [select_action]
  and the article lookup, then raises; nothing is scored, nothing is
  added to the session, no payload is returned. *)
Lemma ask_question_unanswered :
let request := {| Api.question := "disk cache" |} in
let out := exec (Api.ask_question request Demo.alice) Demo.world in
~ Api.answers_in_order request Demo.alice Demo.world /\
trace out =
  [Api.Called (Api.CreateSession "alice") None;
   Api.Called (Api.Reset "disk cache") None;
   Api.Called (Api.SelectAction "disk cache" false) None;
   Api.Called (Api.GetArticle 10) None;
   Api.Logged ERROR "Error processing question: 404: Article not found"] /\
returned (result out) = false /\
Api.log_of (Api.session_manager (final out)) "alice" = [].
Proof.
split_and!; [ | reflexivity | reflexivity | reflexivity ].
intros (state & article & reward & payload & _ & _ & Hresult & _).
vm_compute in Hresult. discriminate Hresult.
Qed.

Lemma missing_article_surfaces_as_500_witness :
let out := exec (Api.ask_question {| Api.question := "disk cache" |} Demo.alice)
             Demo.world in
result out = Raised (HTTPException 500 "404: Article not found") /\
result out <> Raised (HTTPException 404 "Article not found") /\
Api.log_of (Api.session_manager (final out)) "alice" = [].
Proof.
exact (@missing_article_surfaces_as_500 Demo.services Demo.rendering
         {| Api.question := "disk cache" |} Demo.alice Demo.world
         "disk cache" 10%Z tt tt eq_refl eq_refl eq_refl).
Defined.

Lemma owner_gets_stats_or_not_found_witness :
Api.stats_or_not_found "alice" Demo.alice Demo.world /\
final (exec (Api.get_session_stats "alice" Demo.alice) Demo.world) = Demo.world.
Proof.
exact (@owner_gets_stats_or_not_found Demo.services "alice" Demo.alice Demo.world
         eq_refl).
Defined.

(** C5, as stated, fails: bob asks for the stats of alice, who has no
  session.  The answer is 403, not 404. *)
Lemma foreign_stats_not_404 :
Api.sessions (Api.session_manager Demo.world) !! "alice" = None /\
~ Api.stats_or_not_found "alice" Demo.bob Demo.world /\
result (exec (Api.get_session_stats "alice" Demo.bob) Demo.world) =
  Raised (HTTPException 403 "Access forbidden").
Proof.
split_and!; [reflexivity | | reflexivity].
unfold Api.stats_or_not_found. intros Hclaimed.
vm_compute in Hclaimed. discriminate Hclaimed.
Qed.

Lemma foreign_stats_forbidden_witness :
let w2 := {| Api.article_db := Api.article_db Demo.world;
             Api.session_manager :=
               Api.add_interaction (Api.session_manager Demo.world) 7
                 "alice" "storage" "storage" 1%Z;
             Api.clock := 8; Api.hidden := tt |} in
result (exec (Api.get_session_stats "alice" Demo.bob) Demo.world) =
  Raised (HTTPException 403 "Access forbidden") /\
result (exec (Api.get_session_stats "alice" Demo.bob) Demo.world) =
  result (exec (Api.get_session_stats "alice" Demo.bob) w2) /\
trace (exec (Api.get_session_stats "alice" Demo.bob) Demo.world) = [] /\
final (exec (Api.get_session_stats "alice" Demo.bob) Demo.world) = Demo.world.
Proof.
intros w2.
apply (@foreign_stats_forbidden Demo.services "alice" Demo.bob Demo.world w2).
discriminate.
Defined.

End ApiExamples.

(** ** Startup *)

Ltac run_step :=
  match goal with
  | |- context [match ?op ?h with pair _ _ => _ end] =>
      destruct (op h) as [[?|?] ?] eqn:?
  | |- context [match ?l with nil => _ | cons _ _ => _ end] => destruct l
  | |- context [if UserDb.falsy ?u then _ else _] => destruct (UserDb.falsy u) eqn:?
  end.

Ltac run_all :=
  cbn -[pretty String.append];
  repeat (run_step; cbn -[pretty String.append]).



Section StartupFacts.
Import Main.
Context `{Collaborators} `{Rendering}.


(** C2.  When the corpus loaded at startup is empty -- the configuration
    and the article database were constructed and [get_all_articles] gave
    the empty list -- [initialize_system] returns [None] whatever the
    user database does, and [main] logs the failure and returns without
    constructing the API or calling [uvicorn.run]. *)
Theorem empty_corpus_refuses_to_serve
    (h0 h1 h2 h3 : Hidden) (config : Config) (article_db : ArticleDatabase)
    (Hconfig : new_Config h0 = (Returned config, h1))
    (Hdb : new_ArticleDatabase (ARTICLES_PATH config) (EXCEL_PATH config) h1
           = (Returned article_db, h2))
    (Hempty : get_all_articles article_db h2 = (Returned [], h3)) :
  result (exec initialize_system h0) = Returned None /\
  result (exec main h0) = Returned tt /\
  existsb is_serving (trace (exec main h0)) = false /\
  last (trace (exec main h0)) =
    Some (Logged ERROR "System initialization failed. Exiting.").
Proof.
  cbv [main initialize_system call read emit info warning error].
  cbn -[pretty String.append].
  rewrite Hconfig. cbn -[pretty String.append].
  rewrite Hdb. cbn -[pretty String.append].
  rewrite Hempty.
  run_all; done.
Qed.


Lemma failures_handled_sound (tr : list event) :
  failures_handled tr ->
  forall i c e,
    tr !! i = Some (Called c (Some e)) -> pretraining_call c = true ->
    tr !! (i + 1) = Some (Logged WARNING ("Pretraining skipped: " ++ str_exn e)) /\
    exists r, tr !! (i + 2) = Some (Called NewResponseGenerator r).
Proof.
  induction tr as [|ev rest IH]; intros Hchecked i c e Hi Hstage.
  - by rewrite lookup_nil in Hi.
  - destruct i as [|i].
    + cbn in Hi. assert (Hev : ev = Called c (Some e)) by congruence. subst ev.
      cbn [failures_handled] in Hchecked.
      rewrite Hstage in Hchecked. destruct Hchecked as [Hnext _].
      destruct rest as [|[|[] msg] [|[[] r|] rest']]; try done.
      subst msg. cbn. eauto.
    + assert (Hrest : failures_handled rest)
        by (destruct ev as [c' [e'|]|]; cbn [failures_handled] in Hchecked; tauto).
      apply (IH Hrest i c e Hi Hstage).
Qed.

(** C3.  A call of the pretraining stage that raises -- the import of
    [Pretrainer], its constructor, [pretrain_with_supervised],
    [evaluate_pretraining] or the formatting of the accuracy -- is never
    fatal.  In every run of [main], the event right after such a call is
    the warning "Pretraining skipped: ..." carrying that exception, and
    the one after it is the construction of the response generator:
    initialization goes on.  Whenever the response generator has been
    constructed, [initialize_system] returns the components and [main]
    constructs the API and, when that returns, calls [uvicorn.run]. *)
Theorem pretraining_failure_is_not_fatal (h : Hidden) :
  let tr := trace (exec main h) in
  (forall i c e,
      tr !! i = Some (Called c (Some e)) -> pretraining_call c = true ->
      tr !! (i + 1) = Some (Logged WARNING ("Pretraining skipped: " ++ str_exn e)) /\
      exists r, tr !! (i + 2) = Some (Called NewResponseGenerator r)) /\
  (existsb generator_built tr = true ->
   (exists components,
       result (exec initialize_system h) = Returned (Some components)) /\
   existsb api_called tr = true /\
   (existsb api_built tr = true -> existsb is_serving tr = true)).
Proof.
  intros tr.
  assert (Hchecks : holds (fun tr : list event =>
    failures_handled tr /\
    (existsb generator_built tr = true ->
     (exists components,
         result (exec initialize_system h) = Returned (Some components)) /\
     existsb api_called tr = true /\
     (existsb api_built tr = true -> existsb is_serving tr = true))) tr).
  { subst tr.
    cbv [main initialize_system call read emit info warning error].
    run_all.
    all: unfold holds; cbv beta.
    all: (split; [cbn; tauto|]).
    all: cbn -[pretty String.append]; intros Hbuilt; try discriminate Hbuilt.
    all: split; [eexists; reflexivity|]; split; [reflexivity|].
    all: intros Hapi; first [discriminate Hapi | reflexivity]. }
  unfold holds in Hchecks. destruct Hchecks as [Hhandled Hgoes_on].
  split; [|exact Hgoes_on].
  by apply failures_handled_sound.
Qed.

End StartupFacts.

Lemma empty_corpus_refuses_to_serve_witness :
  let startup := Demo.startup [] (Returned tt) in
  result (exec (@Main.initialize_system startup Demo.rendering) Demo.cold_disk)
    = Returned None /\
  result (exec (@Main.main startup Demo.rendering) Demo.cold_disk) = Returned tt /\
  existsb Main.is_serving
    (trace (exec (@Main.main startup Demo.rendering) Demo.cold_disk)) = false /\
  last (trace (exec (@Main.main startup Demo.rendering) Demo.cold_disk)) =
    Some (Main.Logged ERROR "System initialization failed. Exiting.").
Proof.
  exact (@empty_corpus_refuses_to_serve (Demo.startup [] (Returned tt)) Demo.rendering
           Demo.cold_disk Demo.cold_disk Demo.cold_disk Demo.cold_disk tt tt
           eq_refl eq_refl eq_refl).
Defined.

(** A run in which [pretrain_with_supervised] raises for want of labeled
    pairs: event 30 is the failed call, event 31 the warning, event 32 the
    construction of the response generator, and the server is launched. *)
Lemma pretraining_failure_is_not_fatal_witness :
  let startup :=
    Demo.startup ["network"; "storage"] (Raised (Error "ValueError" "no labeled pairs")) in
  let tr := trace (exec (@Main.main startup Demo.rendering) Demo.cold_disk) in
  tr !! 30 = Some (Main.Called (Main.PretrainWithSupervised 500)
                     (Some (Error "ValueError" "no labeled pairs"))) /\
  tr !! 31 = Some (Main.Logged WARNING "Pretraining skipped: no labeled pairs") /\
  (exists r, tr !! 32 = Some (Main.Called Main.NewResponseGenerator r)) /\
  existsb Main.is_serving tr = true.
Proof.
  intros startup tr.
  destruct (@pretraining_failure_is_not_fatal startup Demo.rendering Demo.cold_disk)
    as [Hhandled Hgoes_on].
  destruct (Hhandled 30 (Main.PretrainWithSupervised 500)
              (Error "ValueError" "no labeled pairs") eq_refl eq_refl)
    as [Hwarned Hnext].
  destruct (Hgoes_on eq_refl) as (_ & _ & Hserved).
  split_and!; [reflexivity | exact Hwarned | exact Hnext | exact (Hserved eq_refl)].
Defined.


(** ** More on the user database *)

Section UserDatabaseMore.
Import UserDb.
Context `{CryptContext}.



Lemma create_user_registers
    (self : UserDatabase) (u p salt hashed : string) (fault : option write_fault) :
  pwd_hash p salt = Returned hashed ->
  is_Some (users (snd (create_user self u p salt fault)) !! u).
Proof.
  intros Hhash. destruct (users self !! u) as [entry|] eqn:Hlook.
  - rewrite create_user_taken by eauto. cbn. rewrite Hlook. eauto.
  - rewrite (create_user_fresh_users _ _ _ _ hashed) by done.
    rewrite lookup_insert_eq. eauto.
Qed.


(** X2.  The first registration of a name wins.  Once a name is in the
    user map, as it is after a [create_user] whose password was hashed,
    even if the write then failed, a second [create_user] under the same
    name is refused and changes nothing, whatever the password; when the
    name was free before the first call, every later login is checked
    against the hash of the first password.  A first call whose [hash]
    raises registers nothing. *)
Theorem first_registration_wins
    (self : UserDatabase) (u p1 salt1 p2 salt2 : string)
    (fault1 fault2 : option write_fault) :
  let self1 := snd (create_user self u p1 salt1 fault1) in
  (is_Some (users self1 !! u) ->
   create_user self1 u p2 salt2 fault2 = (Returned false, self1)) /\
  match pwd_hash p1 salt1 with
  | Returned hashed =>
      create_user self1 u p2 salt2 fault2 = (Returned false, self1) /\
      (users self !! u = None ->
       forall p, authenticate_user self1 u p = pwd_verify p hashed)
  | Raised e => self1 = self
  end.
Proof.
  intros self1. split; [apply create_user_taken|].
  destruct (pwd_hash p1 salt1) as [hashed|e] eqn:Hhash.
  - split.
    + apply create_user_taken. by apply (create_user_registers _ _ _ _ hashed).
    + intros Hfree p. by apply authenticate_after_create.
  - subst self1. unfold create_user.
    destruct (users self !! u); [done|]. by rewrite Hhash.
Qed.

(** X3.  Registering one name leaves the login of every other name as it
    was, whether the registration returns or raises. *)
Theorem create_user_keeps_other_logins
    (self : UserDatabase) (u p salt other q : string) (fault : option write_fault)
    (Hother : other <> u) :
  authenticate_user (snd (create_user self u p salt fault)) other q =
    authenticate_user self other q.
Proof.
  unfold authenticate_user, get_user.
  by rewrite create_user_others.
Qed.

(** X4.  A stored record without the key [hashed_password] never logs
    in: an empty record gives [False], any other raises [KeyError]; the
    password scheme is not consulted. *)
Theorem authenticate_user_without_hash
    (self : UserDatabase) (username password : string)
    (record : gmap string string)
    (Hstored : users self !! username = Some record)
    (Hno_hash : record !! "hashed_password" = None) :
  authenticate_user self username password =
    if decide (record = ∅) then Returned false
    else Raised (Error "KeyError" "'hashed_password'").
Proof.
  unfold authenticate_user, get_user. rewrite Hstored. cbn.
  destruct (decide (record = ∅)) as [->|Hfull].
  - by rewrite bool_decide_eq_true_2.
  - rewrite bool_decide_eq_false_2 by done. by rewrite Hno_hash.
Qed.

(** X5.  A users file that is missing or cannot be parsed loads as the
    empty database: nobody logs in.  The first registration then returns
    [True] and replaces the file by one holding that single account when
    the password is hashed and the file is written.  When the file cannot
    be opened for writing -- its directory is missing, say --
    [create_user] raises, the file is as it was and the account is in
    memory only; when the dump fails it raises and the file is left
    unparsable; when [hash] raises, so does [create_user], and nothing
    has changed. *)
Theorem unreadable_file_starts_empty
    (f : file) (Hbad : f = Missing \/ f = Malformed) :
  (forall u p, authenticate_user (__init__ f) u p = Returned false) /\
  (forall u p salt hashed,
      pwd_hash p salt = Returned hashed ->
      let entry : gmap string string :=
        {[ "username" := u; "hashed_password" := hashed ]} in
      create_user (__init__ f) u p salt None =
        (Returned true,
         {| users := {[ u := entry ]}; users_file := Json {[ u := entry ]} |}) /\
      (forall e,
          create_user (__init__ f) u p salt (Some (OpenFails e)) =
            (Raised e, {| users := {[ u := entry ]}; users_file := f |})) /\
      (forall e,
          create_user (__init__ f) u p salt (Some (DumpFails e)) =
            (Raised e, {| users := {[ u := entry ]}; users_file := Malformed |}))) /\
  (forall u p salt fault e,
      pwd_hash p salt = Raised e ->
      create_user (__init__ f) u p salt fault = (Raised e, __init__ f)).
Proof.
  assert (Hempty : users (__init__ f) = ∅) by (destruct Hbad; subst f; reflexivity).
  split_and!.
  - intros u p. apply authenticate_user_absent. by rewrite Hempty.
  - intros u p salt hashed Hhash entry.
    split_and!; [|intros e|intros e];
      rewrite (create_user_fresh _ _ _ _ hashed) by (by rewrite ?Hempty);
      cbv zeta; rewrite Hempty, insert_empty; reflexivity.
  - intros u p salt fault e Hhash.
    apply create_user_unhashed; [by rewrite Hempty | exact Hhash].
Qed.
End UserDatabaseMore.


Lemma create_user_keeps_other_logins_witness :
  @UserDb.authenticate_user UserDb.toy_context
    (snd (@UserDb.create_user UserDb.toy_context
            (UserDb.__init__ Samples.patchy_file) "erin" "pw" "salt"
            (Some (UserDb.DumpFails (Error "OSError" "No space left on device")))))
    "dima" "s3cret" = Returned true.
Proof.
  rewrite (@create_user_keeps_other_logins UserDb.toy_context
             (UserDb.__init__ Samples.patchy_file) "erin" "pw" "salt" "dima" "s3cret")
    by discriminate.
  reflexivity.
Defined.

Lemma authenticate_user_without_hash_witness :
  @UserDb.authenticate_user UserDb.toy_context
    (UserDb.__init__ Samples.patchy_file) "ghost" "anything" =
    Raised (Error "KeyError" "'hashed_password'") /\
  @UserDb.authenticate_user UserDb.toy_context
    (UserDb.__init__ Samples.patchy_file) "blank" "anything" = Returned false.
Proof.
  split.
  - exact (@authenticate_user_without_hash UserDb.toy_context
             (UserDb.__init__ Samples.patchy_file) "ghost" "anything"
             {[ "username" := "ghost" ]} eq_refl eq_refl).
  - exact (@authenticate_user_without_hash UserDb.toy_context
             (UserDb.__init__ Samples.patchy_file) "blank" "anything"
             ∅ eq_refl eq_refl).
Defined.

(** On a machine without the directory [data], nobody logs in and the
    first registration raises, leaving the account in memory only. *)
Lemma unreadable_file_starts_empty_witness :
  let e := Error "FileNotFoundError" "No such file or directory: data/users.json" in
  @UserDb.authenticate_user UserDb.toy_context
    (UserDb.__init__ UserDb.Missing) "dima" "s3cret" = Returned false /\
  @UserDb.create_user UserDb.toy_context (UserDb.__init__ UserDb.Missing)
    "dima" "s3cret" "NaCl" (Some (UserDb.OpenFails e)) =
    (Raised e,
     {| UserDb.users :=
          {[ "dima" := {[ "username" := "dima"; "hashed_password" := "$s3cret" ]} ]};
        UserDb.users_file := UserDb.Missing |}).
Proof.
  intros e.
  destruct (@unreadable_file_starts_empty UserDb.toy_context UserDb.Missing
              (or_introl eq_refl)) as (Hnobody & Hfirst & _).
  split; [apply Hnobody|].
  destruct (Hfirst "dima" "s3cret" "NaCl" "$s3cret" eq_refl) as (_ & Hopen & _).
  apply Hopen.
Defined.

(** ** The account handlers *)

Section AccountFacts.
Import Accounts.
Context `{UserDb.CryptContext} `{Security}.

Lemma register_final (form_data : OAuth2PasswordRequestForm) (salt : string)
    (fault : option UserDb.write_fault) (w : World) :
  final (exec (register form_data salt fault) w) =
    {| user_db := snd (UserDb.create_user (user_db w) (username form_data)
                         (password form_data) salt fault);
       vault := vault w |}.
Proof.
  cbv [register call]. cbn.
  by destruct (UserDb.create_user (user_db w) (username form_data)
                 (password form_data) salt fault) as [[[]|e] db].
Qed.

(** X6.  [register] turns a refused [create_user] into a 400 and lets its
    exceptions through.  For a name already in the user map it raises
    "Username already exists" and leaves the database, file included, as
    it was.  For a free name: when [hash] raises, that exception leaves
    the handler and nothing has changed; otherwise the name is in the
    user map afterwards, and the handler reports success with the map on
    file when the write goes through, and lets the exception of the write
    through when it does not, the file then being as it was (it could not
    be opened) or unparsable (the dump failed).  The token service is not
    touched. *)
Theorem register_refuses_taken_name
    (form_data : OAuth2PasswordRequestForm) (salt : string)
    (fault : option UserDb.write_fault) (w : World) :
  let out := exec (register form_data salt fault) w in
  let db := user_db (final out) in
  vault (final out) = vault w /\
  db = snd (UserDb.create_user (user_db w) (username form_data)
              (password form_data) salt fault) /\
  match UserDb.users (user_db w) !! username form_data with
  | Some _ =>
      result out = Raised (HTTPException 400 "Username already exists") /\
      db = user_db w
  | None =>
      match UserDb.pwd_hash (password form_data) salt with
      | Raised e => result out = Raised e /\ db = user_db w
      | Returned hashed =>
          UserDb.users db !! username form_data =
            Some {[ "username" := username form_data;
                    "hashed_password" := hashed ]} /\
          match fault with
          | None =>
              result out = Returned {| message := "User created successfully" |} /\
              UserDb.users_file db = UserDb.Json (UserDb.users db)
          | Some (UserDb.OpenFails e) =>
              result out = Raised e /\
              UserDb.users_file db = UserDb.users_file (user_db w)
          | Some (UserDb.DumpFails e) =>
              result out = Raised e /\
              UserDb.users_file db = UserDb.Malformed
          end
      end
  end.
Proof.
  intros out db. subst db out.
  split; [by rewrite register_final|]. split; [by rewrite register_final|].
  cbv [register call]. cbn.
  destruct (UserDb.users (user_db w) !! username form_data) as [entry|] eqn:Hlook.
  - rewrite create_user_taken by eauto. cbn. done.
  - destruct (UserDb.pwd_hash (password form_data) salt) as [hashed|e] eqn:Hhash.
    + rewrite (create_user_fresh _ _ _ _ hashed) by done.
      destruct fault as [[e|e]|]; cbn;
        (split_and!; [apply lookup_insert_eq | done | done]).
    + rewrite (create_user_unhashed _ _ _ _ _ e) by done. cbn. done.
Qed.

(** X7.  Register, then log in: for a password scheme whose [verify]
    accepts its own hashes, after the [register] of a free name whose
    password was hashed -- even when the write of the file then failed --
    a [login] with the same form is authenticated, asks for a token for
    exactly that name, and returns it as a bearer token when the token
    service returns one. *)
Theorem register_then_login
    (verify_hash : forall password salt hashed,
        UserDb.pwd_hash password salt = Returned hashed ->
        UserDb.pwd_verify password hashed = Returned true)
    (form_data : OAuth2PasswordRequestForm) (salt hashed token : string)
    (fault : option UserDb.write_fault) (w : World) (v : Vault)
    (Hfree : UserDb.users (user_db w) !! username form_data = None)
    (Hhash : UserDb.pwd_hash (password form_data) salt = Returned hashed)
    (Htoken : create_access_token (username form_data) (vault w) = (Returned token, v)) :
  let w1 := final (exec (register form_data salt fault) w) in
  let out := exec (login form_data) w1 in
  result out = Returned {| access_token := token; token_type := "bearer" |} /\
  trace out =
    [Called (AuthenticateUser (username form_data) (password form_data)) None;
     Called (CreateAccessToken (username form_data)) None] /\
  user_db (final out) = user_db w1.
Proof.
  intros w1 out. subst out w1. rewrite register_final.
  cbv [login call]. cbn.
  rewrite (authenticate_after_create _ _ _ _ hashed) by done.
  rewrite (verify_hash _ _ _ Hhash). cbn.
  rewrite Htoken. cbn. done.
Qed.

(** X8.  A login that is not authenticated -- the name is unknown, or
    [verify] says no -- raises 401 "Invalid credentials"; no token is
    asked for and nothing changes. *)
Theorem failed_login_issues_no_token
    (form_data : OAuth2PasswordRequestForm) (w : World)
    (Hdenied : UserDb.authenticate_user (user_db w) (username form_data)
                 (password form_data) = Returned false) :
  let out := exec (login form_data) w in
  result out = Raised (HTTPException 401 "Invalid credentials") /\
  trace out =
    [Called (AuthenticateUser (username form_data) (password form_data)) None] /\
  final out = w.
Proof.
  cbv [login call]. cbn. rewrite Hdenied. cbn. done.
Qed.

(** X9.  [login] has no [except]: what [authenticate_user] raises -- a
    [KeyError] on a record without [hashed_password], or whatever
    [verify] raises on an unreadable hash -- leaves the handler as it is,
    not as a 401, and no token is asked for. *)
Theorem login_propagates_errors
    (form_data : OAuth2PasswordRequestForm) (w : World) (e : exn)
    (Hraises : UserDb.authenticate_user (user_db w) (username form_data)
                 (password form_data) = Raised e) :
  let out := exec (login form_data) w in
  result out = Raised e /\
  trace out =
    [Called (AuthenticateUser (username form_data) (password form_data)) (Some e)] /\
  final out = w.
Proof.
  cbv [login call]. cbn. rewrite Hraises. cbn. done.
Qed.

(** X10.  [get_all_users] lists exactly the names in the user map, each
    once, with their number as [total]; after the [register] of a free
    name whose password was hashed, whatever became of the write, the
    list is the old one with the new name added, in some order, and
    [total] is one more. *)
Theorem get_all_users_lists_names
    (form_data : OAuth2PasswordRequestForm) (salt : string)
    (fault : option UserDb.write_fault) (w : World) :
  let w1 := final (exec (register form_data salt fault) w) in
  match result (exec get_all_users w), result (exec get_all_users w1) with
  | Returned before, Returned after =>
      NoDup (users before) /\
      total before = size (UserDb.users (user_db w)) /\
      (forall u, u ∈ users before <-> is_Some (UserDb.users (user_db w) !! u)) /\
      (UserDb.users (user_db w) !! username form_data = None ->
       returned (UserDb.pwd_hash (password form_data) salt) = true ->
       users after ≡ₚ username form_data :: users before /\
       total after = S (total before))
  | _, _ => False
  end.
Proof.
  intros w1. subst w1. rewrite register_final.
  cbv [get_all_users read]. cbn.
  split_and!.
  - apply NoDup_fst_map_to_list.
  - by rewrite length_fmap, length_map_to_list.
  - intros u. rewrite list_elem_of_fmap. split.
    + intros [[u' entry] [-> Hin]]. apply elem_of_map_to_list in Hin. eauto.
    + intros [entry Hentry]. exists (u, entry). split; [done|].
      by apply elem_of_map_to_list.
  - intros Hfree Hhashed.
    destruct (UserDb.pwd_hash (password form_data) salt) as [hashed|e] eqn:Hhash;
      [|discriminate Hhashed].
    rewrite (create_user_fresh_users _ _ _ _ hashed) by done.
    assert (Hperm : map_to_list
              (<[username form_data :=
                   {[ "username" := username form_data;
                      "hashed_password" := hashed ]}]>
                 (UserDb.users (user_db w))) ≡ₚ
            (username form_data,
             {[ "username" := username form_data; "hashed_password" := hashed ]})
            :: map_to_list (UserDb.users (user_db w)))
      by by apply map_to_list_insert.
    split.
    + by rewrite Hperm.
    + by rewrite !length_fmap, Hperm.
Qed.

(** X11.  The demo account.  On a file that has the name [admin], even
    bound to an empty record, seeding returns and nothing is created or
    changed.  On a file without that name the account is created with
    password [admin]: when [hash] raises, seeding raises and the database
    is as loaded; otherwise, with a scheme whose [verify] accepts its own
    hashes, [admin]/[admin] logs in on the database in memory, and the
    account is on file if the write goes through, while seeding raises,
    with nothing written or the file left unparsable, if it does not.
    Whenever seeding returns, the name [admin] is in the user map. *)
Theorem admin_is_seeded
    (verify_hash : forall password salt hashed,
        UserDb.pwd_hash password salt = Returned hashed ->
        UserDb.pwd_verify password hashed = Returned true)
    (f : UserDb.file) (salt : string) (fault : option UserDb.write_fault) :
  let seeded := (init_user_db f salt fault).1 in
  let db := (init_user_db f salt fault).2 in
  (seeded = Returned tt -> is_Some (UserDb.users db !! "admin")) /\
  match UserDb._load_users f !! "admin" with
  | Some _ => seeded = Returned tt /\ db = UserDb.__init__ f
  | None =>
      match UserDb.pwd_hash "admin" salt with
      | Raised e => seeded = Raised e /\ db = UserDb.__init__ f
      | Returned hashed =>
          UserDb.authenticate_user db "admin" "admin" = Returned true /\
          match fault with
          | None =>
              seeded = Returned tt /\
              UserDb.users_file db = UserDb.Json (UserDb.users db)
          | Some (UserDb.OpenFails e) =>
              seeded = Raised e /\ UserDb.users_file db = f
          | Some (UserDb.DumpFails e) =>
              seeded = Raised e /\ UserDb.users_file db = UserDb.Malformed
          end
      end
  end.
Proof.
  intros seeded db. subst seeded db. unfold init_user_db, UserDb.get_user.
  change (UserDb.users (UserDb.__init__ f)) with (UserDb._load_users f).
  destruct (UserDb._load_users f !! "admin") as [record|] eqn:Hadmin.
  - rewrite create_user_taken by (cbn; rewrite Hadmin; eauto).
    destruct (UserDb.falsy (Some record));
      (split; [intros _; cbn; rewrite Hadmin; eauto | done]).
  - cbn [UserDb.falsy].
    destruct (UserDb.pwd_hash "admin" salt) as [hashed|e] eqn:Hhash.
    + pose proof (authenticate_after_create (UserDb.__init__ f) "admin" "admin" salt
                    hashed "admin" fault Hadmin Hhash) as Hlogin.
      rewrite (verify_hash _ _ _ Hhash) in Hlogin.
      rewrite (create_user_fresh _ _ _ _ hashed) in * by done.
      destruct fault as [[e|e]|]; cbn in *;
        (split; [first [discriminate | intros _; rewrite lookup_insert_eq; eauto]
                | done]).
    + rewrite (create_user_unhashed _ _ _ _ _ e) by done.
      split; [discriminate | done].
Qed.
End AccountFacts.

Lemma register_then_login_witness :
  let form := {| Accounts.username := "erin"; Accounts.password := "pw" |} in
  let w := @Accounts.Build_World Samples.security
             (UserDb.__init__ Samples.patchy_file) 0 in
  let w1 := final (exec (@Accounts.register UserDb.toy_context Samples.security
                           form "salt" None) w) in
  let out := exec (@Accounts.login UserDb.toy_context Samples.security form) w1 in
  result out =
    Returned {| Accounts.access_token := "token-for-erin";
                Accounts.token_type := "bearer" |} /\
  trace out =
    [Accounts.Called (Accounts.AuthenticateUser "erin" "pw") None;
     Accounts.Called (Accounts.CreateAccessToken "erin") None] /\
  Accounts.user_db (final out) = Accounts.user_db w1.
Proof.
  intros form w.
  apply (@register_then_login UserDb.toy_context Samples.security
           toy_verify_hash form "salt" "$pw" "token-for-erin" None w 1
           eq_refl eq_refl eq_refl).
Defined.

Lemma failed_login_issues_no_token_witness :
  let form := {| Accounts.username := "nobody"; Accounts.password := "pw" |} in
  let w := @Accounts.Build_World Samples.security
             (UserDb.__init__ Samples.patchy_file) 0 in
  let out := exec (@Accounts.login UserDb.toy_context Samples.security form) w in
  result out = Raised (HTTPException 401 "Invalid credentials") /\
  trace out = [Accounts.Called (Accounts.AuthenticateUser "nobody" "pw") None] /\
  final out = w.
Proof.
  intros form w.
  exact (@failed_login_issues_no_token UserDb.toy_context Samples.security
           form w eq_refl).
Defined.

Lemma login_propagates_errors_witness :
  let form := {| Accounts.username := "ghost"; Accounts.password := "pw" |} in
  let w := @Accounts.Build_World Samples.security
             (UserDb.__init__ Samples.patchy_file) 0 in
  let out := exec (@Accounts.login UserDb.toy_context Samples.security form) w in
  result out = Raised (Error "KeyError" "'hashed_password'") /\
  trace out =
    [Accounts.Called (Accounts.AuthenticateUser "ghost" "pw")
       (Some (Error "KeyError" "'hashed_password'"))] /\
  final out = w.
Proof.
  intros form w.
  exact (@login_propagates_errors UserDb.toy_context Samples.security
           form w (Error "KeyError" "'hashed_password'") eq_refl).
Defined.

(** Seeding on an empty disk: with the file written, and with a users
    file that cannot be opened for writing. *)
Lemma admin_is_seeded_witness :
  let e := Error "FileNotFoundError" "No such file or directory: data/users.json" in
  let written := @Accounts.init_user_db UserDb.toy_context UserDb.Missing "salt" None in
  let unwritten :=
    @Accounts.init_user_db UserDb.toy_context UserDb.Missing "salt"
      (Some (UserDb.OpenFails e)) in
  (@UserDb.authenticate_user UserDb.toy_context written.2 "admin" "admin"
     = Returned true /\
   written.1 = Returned tt /\
   UserDb.users_file written.2 = UserDb.Json (UserDb.users written.2)) /\
  (@UserDb.authenticate_user UserDb.toy_context unwritten.2 "admin" "admin"
     = Returned true /\
   unwritten.1 = Raised e /\
   UserDb.users_file unwritten.2 = UserDb.Missing).
Proof.
  intros e written unwritten. split.
  - exact (proj2 (@admin_is_seeded UserDb.toy_context toy_verify_hash
                    UserDb.Missing "salt" None)).
  - exact (proj2 (@admin_is_seeded UserDb.toy_context toy_verify_hash
                    UserDb.Missing "salt" (Some (UserDb.OpenFails e)))).
Defined.

(** ** More on the question handler *)

Ltac ask_step :=
  match goal with
  | |- context [match ?op ?h with pair _ _ => _ end] =>
      destruct (op h) as [[?|?] ?] eqn:?
  | |- context [match Api.get_article ?db ?a with Some _ => _ | None => _ end] =>
      destruct (Api.get_article db a) eqn:?
  | |- context [if bool_decide ?P then _ else _] =>
      destruct (bool_decide P) eqn:?
  | |- context [if negb (Api.truthy ?a) then _ else _] =>
      destruct (Api.truthy a) eqn:?
  end.

Ltac ask_all :=
  cbv [Api.ask_question call read emit Api.with_hidden Api.with_sessions Api.reading];
  cbn; repeat (ask_step; cbn).

Section AskFacts.
Import Api.
Context `{Collaborators} `{Rendering}.

Lemma create_session_others (sm : SessionManager) (now : nat) (uid other : string) :
  other <> uid ->
  sessions (create_session sm now uid) !! other = sessions sm !! other.
Proof.
  intros Hne. unfold create_session.
  destruct (sessions sm !! uid); [done|]. cbn. by rewrite lookup_insert_ne.
Qed.

Lemma add_interaction_others
    (sm : SessionManager) (now : nat) (uid other q : string) (a : Article) (r : Reward) :
  other <> uid ->
  sessions (add_interaction sm now uid q a r) !! other = sessions sm !! other.
Proof.
  intros Hne. unfold add_interaction.
  destruct (create_session_has sm now uid) as [s Hs]. rewrite Hs. cbn.
  rewrite lookup_insert_ne by done. by apply create_session_others.
Qed.

Lemma add_interaction_has
    (sm : SessionManager) (now : nat) (uid q : string) (a : Article) (r : Reward) :
  is_Some (sessions (add_interaction sm now uid q a r) !! uid).
Proof.
  unfold add_interaction.
  destruct (create_session_has sm now uid) as [s Hs]. rewrite Hs. cbn.
  rewrite lookup_insert_eq. eauto.
Qed.

(** X12.  Whatever goes wrong in [ask_question] reaches the caller as
    an [HTTPException] with status 500 whose detail is the text of the
    exception that went wrong, logged first as an error; no other
    exception and no other status leaves the handler.  That exception is
    the one raised by the last call made, the only call that raised; or,
    when every call returned, it is the 404 "Article not found" that the
    handler raises itself right after the article lookup, the selected
    action having no article or an empty one.  A request that is answered
    saw no call raise.  Exceptions are instances of [Exception]. *)
Theorem ask_question_fails_only_with_500
    (request : QuestionRequest) (current_user : TokenData) (w : World) :
  let out := exec (ask_question request current_user) w in
  match result out with
  | Returned _ => failures (trace out) = []
  | Raised e =>
      exists cause,
        e = HTTPException 500 (str_exn cause) /\
        last (trace out) =
          Some (Logged ERROR ("Error processing question: " ++ str_exn cause)) /\
        ((exists c, last (removelast (trace out)) = Some (Called c (Some cause))) /\
         failures (trace out) = [cause]
         \/
         cause = HTTPException 404 "Article not found" /\
         failures (trace out) = [] /\
         exists article_id,
           last (removelast (trace out)) = Some (Called (GetArticle article_id) None) /\
           match get_article (article_db w) article_id with
           | Some article => truthy article = false
           | None => True
           end)
  end.
Proof.
  ask_all; try reflexivity.
  all: eexists; split; [reflexivity|]; split; [reflexivity|].
  all: first
         [ left; split; [eexists; reflexivity | reflexivity]
         | right; split; [reflexivity|]; split; [reflexivity|];
           eexists; split; [reflexivity|];
           match goal with
           | Hlookup : get_article _ _ = _ |- _ => rewrite Hlookup
           end; first [assumption | exact I] ].
Qed.

(** X13.  What a question never touches: in every run of [ask_question],
    failed or not, the article store and the clock are as before and so
    is the session of every other user; and the asking user has a session
    afterwards, created before anything else is tried. *)
Theorem ask_question_touches_one_session
    (request : QuestionRequest) (current_user : TokenData) (w : World) :
  let out := exec (ask_question request current_user) w in
  article_db (final out) = article_db w /\
  clock (final out) = clock w /\
  (forall other, other <> user_id current_user ->
     sessions (session_manager (final out)) !! other =
       sessions (session_manager w) !! other) /\
  is_Some (sessions (session_manager (final out)) !! user_id current_user).
Proof.
  ask_all.
  all: split; [reflexivity|]; split; [reflexivity|]; split.
  all: try (intros other Hother;
            rewrite ?add_interaction_others, ?create_session_others by done;
            reflexivity).
  all: try apply add_interaction_has.
  all: try apply create_session_has.
  all: match goal with
       | Hknown : bool_decide _ = true |- _ =>
           exact (bool_decide_eq_true_1 _ Hknown)
       end.
Qed.

(** X14.  The interaction is recorded before the answer is written: when
    everything up to scoring succeeds, the selected action having a
    truthy (not empty) article, and [generate_answer] raises, the
    caller gets a 500 carrying that exception, yet the user's session log
    has already grown by the interaction. *)
Theorem unanswered_question_is_still_recorded
    (request : QuestionRequest) (current_user : TokenData) (w : World)
    (state : State) (article_id : Z) (article : Article) (reward : Reward)
    (e : exn) (h1 h2 h3 h4 : Hidden)
    (Hreset : reset (question request) (hidden w) = (Returned state, h1))
    (Hselect : select_action state false h1 = (Returned article_id, h2))
    (Hfound : get_article (article_db w) article_id = Some article)
    (Htruthy : truthy article = true)
    (Hscore : _calculate_reward article h2 = (Returned reward, h3))
    (Hanswer : generate_answer (question request) article h3 = (Raised e, h4)) :
  let out := exec (ask_question request current_user) w in
  result out = Raised (HTTPException 500 (str_exn e)) /\
  log_of (session_manager (final out)) (user_id current_user) =
    (log_of (session_manager w) (user_id current_user) ++
     [{| i_question := question request; i_article := article;
         i_reward := reward; i_timestamp := clock w |}])%list.
Proof.
  cbv [ask_question call read emit]. cbn.
  destruct (bool_decide (is_Some (sessions (session_manager w) !! user_id current_user)))
    eqn:Hknown;
    cbn; unfold with_hidden; cbn;
    rewrite Hreset; cbn; rewrite Hselect; cbn; rewrite Hfound; cbn;
    rewrite Htruthy; cbn; rewrite Hscore; cbn; rewrite Hanswer; cbn;
    (split; [reflexivity|]).
  - apply log_of_add_interaction.
  - rewrite add_interaction_after_create. apply log_of_add_interaction.
Qed.

(** X15.  A request that never reaches [add_interaction] -- [reset],
    [select_action] or the scoring raised, or the selected action has no
    article or an empty one -- leaves the user's session log as it
    was. *)
Theorem early_failure_records_nothing
    (request : QuestionRequest) (current_user : TokenData) (w : World) :
  let out := exec (ask_question request current_user) w in
  existsb (fun ev => match ev with
                     | Called (AddInteraction _ _ _ _) _ => true
                     | _ => false
                     end) (trace out) = false ->
  log_of (session_manager (final out)) (user_id current_user) =
    log_of (session_manager w) (user_id current_user).
Proof.
  ask_all; intros Hnone; try discriminate Hnone;
    first [ reflexivity | apply log_of_create_session ].
Qed.

(** X21.  An article that is stored but empty counts as missing: when
    the selected action maps to an article that is falsy, [ask_question]
    raises its 404 "Article not found" right after the lookup and answers
    with the 500 made of it; nothing is scored, recorded or generated. *)
Theorem empty_article_counts_as_missing
    (request : QuestionRequest) (current_user : TokenData) (w : World)
    (state : State) (article_id : Z) (article : Article) (h1 h2 : Hidden)
    (Hreset : reset (question request) (hidden w) = (Returned state, h1))
    (Hselect : select_action state false h1 = (Returned article_id, h2))
    (Hfound : get_article (article_db w) article_id = Some article)
    (Hfalsy : truthy article = false) :
  let uid := user_id current_user in
  let out := exec (ask_question request current_user) w in
  result out =
    Raised (HTTPException 500 (str_exn (HTTPException 404 "Article not found"))) /\
  trace out =
    ((if bool_decide (is_Some (sessions (session_manager w) !! uid)) then []
      else [Called (CreateSession uid) None]) ++
     [Called (Reset (question request)) None;
      Called (SelectAction state false) None;
      Called (GetArticle article_id) None;
      Logged ERROR ("Error processing question: " ++
                    str_exn (HTTPException 404 "Article not found"))])%list /\
  log_of (session_manager (final out)) uid = log_of (session_manager w) uid.
Proof.
  cbv [ask_question call read emit]. cbn.
  destruct (bool_decide (is_Some (sessions (session_manager w) !! user_id current_user)));
    cbn; unfold with_hidden; cbn;
    rewrite Hreset; cbn; rewrite Hselect; cbn; rewrite Hfound; cbn;
    rewrite Hfalsy; cbn; (split_and!; [reflexivity | reflexivity | ]).
  - reflexivity.
  - apply log_of_create_session.
Qed.
End AskFacts.

Lemma unanswered_question_is_still_recorded_witness :
  let request := {| Api.question := "storage" |} in
  let out := exec (@Api.ask_question Samples.mute_services Demo.rendering
                     request Demo.alice) Samples.mute_world in
  result out = Raised (HTTPException 500 "'summary'") /\
  @Api.log_of Samples.mute_services (Api.session_manager (final out)) "alice" =
    [@Api.Build_Interaction Samples.mute_services "storage" "storage" 1%Z 1000].
Proof.
  exact (@unanswered_question_is_still_recorded Samples.mute_services Demo.rendering
           {| Api.question := "storage" |} Demo.alice Samples.mute_world
           "storage" 7%Z "storage" 1%Z (Error "KeyError" "'summary'")
           tt tt tt tt eq_refl eq_refl eq_refl eq_refl eq_refl eq_refl).
Defined.

Lemma empty_article_counts_as_missing_witness :
  let out := exec (@Api.ask_question Demo.services Demo.rendering
                     {| Api.question := EmptyString |} Demo.alice)
               Samples.blank_world in
  result out = Raised (HTTPException 500 "404: Article not found") /\
  trace out =
    [@Api.Called Demo.services (@Api.CreateSession Demo.services "alice") None;
     @Api.Called Demo.services (@Api.Reset Demo.services EmptyString) None;
     @Api.Called Demo.services
       (@Api.SelectAction Demo.services EmptyString false) None;
     @Api.Called Demo.services (@Api.GetArticle Demo.services 0) None;
     @Api.Logged Demo.services ERROR
       "Error processing question: 404: Article not found"] /\
  @Api.log_of Demo.services (Api.session_manager (final out)) "alice" = [].
Proof.
  exact (@empty_article_counts_as_missing Demo.services Demo.rendering
           {| Api.question := EmptyString |} Demo.alice Samples.blank_world
           EmptyString 0%Z EmptyString tt tt eq_refl eq_refl eq_refl eq_refl).
Defined.

Lemma early_failure_records_nothing_witness :
  let out := exec (@Api.ask_question Demo.services Demo.rendering
                     {| Api.question := "disk cache" |} Demo.bob) Demo.world in
  @Api.log_of Demo.services (Api.session_manager (final out)) "bob" = [].
Proof.
  exact (@early_failure_records_nothing Demo.services Demo.rendering
           {| Api.question := "disk cache" |} Demo.bob Demo.world eq_refl).
Defined.

(** ** More on startup *)

Section StartupMore.
Import Main StartupLog.
Context `{Collaborators} `{Rendering}.

Lemma existsb_lookup (f : event -> bool) (tr : list event) (i : nat) (ev : event) :
  tr !! i = Some ev -> f ev = true -> existsb f tr = true.
Proof.
  intros Hi Hf. apply existsb_exists. exists ev. split; [|done].
  apply list_elem_of_In. by eapply list_elem_of_lookup_2.
Qed.

Lemma failures_logged_sound (tr : list event) :
  failures_logged tr ->
  forall i c e,
    tr !! i = Some (Called c (Some e)) -> tr !! (S i) = Some (failure_log c e).
Proof.
  induction tr as [|ev rest IH]; intros Hchecked i c e Hi.
  - by rewrite lookup_nil in Hi.
  - destruct i as [|i].
    + cbn in Hi. assert (Hev : ev = Called c (Some e)) by congruence. subst ev.
      cbn [failures_logged] in Hchecked. destruct Hchecked as [Hnext _].
      cbn. by destruct rest.
    + assert (Hrest : failures_logged rest)
        by (destruct ev as [c' [e'|]|]; cbn [failures_logged] in Hchecked; tauto).
      exact (IH Hrest i c e Hi).
Qed.

(** The event one and two places before position [i] of [tr], looking
    into [history] (most recent first) where [tr] has not that many. *)
Lemma agent_dims_written_sound (tr : list event) :
  forall history,
    agent_dims_written history tr ->
    forall i state_dim action_dim r,
      tr !! i = Some (Called (NewDQNAgent state_dim action_dim) r) ->
      match i with
      | 0 => history !! 0
      | S i1 => tr !! i1
      end = Some (Called (SetStateDim state_dim) None) /\
      match i with
      | 0 => history !! 1
      | 1 => history !! 0
      | S (S i2) => tr !! i2
      end = Some (Called (SetActionDim action_dim) None).
Proof.
  induction tr as [|ev rest IH]; intros history Hchecked i sd ad r Hi.
  - by rewrite lookup_nil in Hi.
  - cbn [agent_dims_written] in Hchecked. destruct Hchecked as [Hhere Hrest].
    destruct i as [|i].
    + cbn in Hi. assert (Hev : ev = Called (NewDQNAgent sd ad) r) by congruence.
      subst ev. exact Hhere.
    + destruct (IH (ev :: history) Hrest i sd ad r Hi) as [Hone Htwo].
      destruct i as [|[|i]]; cbn in *; done.
Qed.

(** One pass over every path of [main]. *)
Lemma main_paths (h : Hidden) :
  let tr := trace (exec main h) in
  (result (exec initialize_system h) = Returned None ->
   last tr = Some (Logged ERROR "System initialization failed. Exiting.") /\
   existsb api_called tr = false /\
   existsb is_serving tr = false) /\
  (existsb fatal tr = true -> existsb is_serving tr = false) /\
  failures_logged tr /\
  agent_dims_written [] tr.
Proof.
  intros tr.
  assert (Hchecks : holds (fun tr : list event =>
    (result (exec initialize_system h) = Returned None ->
     last tr = Some (Logged ERROR "System initialization failed. Exiting.") /\
     existsb api_called tr = false /\
     existsb is_serving tr = false) /\
    (existsb fatal tr = true -> existsb is_serving tr = false) /\
    failures_logged tr /\
    agent_dims_written [] tr) tr); [|exact Hchecks].
  subst tr.
  cbv [main initialize_system call read emit info warning error].
  run_all.
  all: unfold holds; cbv beta.
  all: split; [intros Hnone; first [discriminate Hnone | repeat split]|].
  all: split; [cbn; intros Hfatal; first [discriminate Hfatal | reflexivity]|].
  all: split; [cbn; tauto|].
  all: cbn; tauto.
Qed.

(** One pass over every path of [initialize_system]. *)
Lemma initialize_system_paths (h : Hidden) :
  let out := exec initialize_system h in
  (exists components, result out = Returned components) /\
  (result out = Returned None <-> existsb is_error_log (trace out) = true).
Proof.
  intros out.
  assert (Hchecks : holds (fun out : run event Hidden (option Components) =>
    (exists components, result out = Returned components) /\
    (result out = Returned None <-> existsb is_error_log (trace out) = true)) out);
    [|exact Hchecks].
  subst out.
  cbv [initialize_system call read emit info warning error].
  run_all.
  all: unfold holds; cbv beta; cbn -[pretty String.append].
  all: split; [eexists; reflexivity|].
  all: split; intros Hended; first [reflexivity | discriminate Hended].
Qed.

(** X16.  [initialize_system] lets no exception out.  Whatever a
    constructor, a method or an import does -- return, or raise an
    instance of [Exception] -- it returns, the components or [None]; and
    it returns [None] exactly when it has logged an error, be it the
    empty corpus or the exception caught by its [except] clause. *)
Theorem initialize_system_never_raises (h : Hidden) :
  let out := exec initialize_system h in
  (exists components, result out = Returned components) /\
  (result out = Returned None <-> existsb is_error_log (trace out) = true).
Proof. apply initialize_system_paths. Qed.

(** X17.  When [initialize_system] returns [None], for whatever reason,
    [main] does nothing more than log "System initialization failed.
    Exiting.": the API is not constructed and [uvicorn.run] is not
    called. *)
Theorem failed_initialization_exits (h : Hidden)
    (Hnone : result (exec initialize_system h) = Returned None) :
  last (trace (exec main h)) =
    Some (Logged ERROR "System initialization failed. Exiting.") /\
  existsb api_called (trace (exec main h)) = false /\
  existsb is_serving (trace (exec main h)) = false.
Proof.
  destruct (main_paths h) as (Hexit & _). by apply Hexit.
Qed.

(** X18.  Outside the pretraining stage every failure is fatal: in a run
    of [main] in which any call other than a pretraining call raises --
    the configuration, a database, an import, the encoder, the
    environment, the agent, the response generator or the API --
    [uvicorn.run] is never called. *)
Theorem fatal_failure_never_serves
    (h : Hidden) (i : nat) (c : callee) (e : exn)
    (Hraised : trace (exec main h) !! i = Some (Called c (Some e)))
    (Hfatal : fatal_call c = true) :
  existsb is_serving (trace (exec main h)) = false.
Proof.
  destruct (main_paths h) as (_ & Hnever & _). apply Hnever.
  by apply (existsb_lookup fatal _ i (Called c (Some e))).
Qed.

(** X19.  No exception of a constructor, a method or an import is
    swallowed in silence: in every run of [main], the event right after a
    call other than [uvicorn.run] that raised is the log line of the
    [except] clause that caught it, carrying the text of that exception
    -- a warning for a pretraining call, an error "Failed to start
    server" for the API, an error "Failed to initialize system" for
    everything else.  Nothing is said of how [uvicorn.run] ends. *)
Theorem startup_failures_are_logged
    (h : Hidden) (i : nat) (c : callee) (e : exn)
    (Hraised : trace (exec main h) !! i = Some (Called c (Some e)))
    (Hcall : is_serving (Called c (Some e)) = false) :
  trace (exec main h) !! (S i) = Some (failure_log c e).
Proof.
  destruct (main_paths h) as (_ & _ & Hlogged & _).
  by apply failures_logged_sound.
Qed.

(** X20.  The agent is built with the dimensions just written to the
    configuration: in every run of [main], the call that constructs
    [DQNAgent] with some state and action dimensions comes right after
    the writes of that same action dimension and that same state
    dimension to [config.model], both of which returned. *)
Theorem agent_built_with_written_dims
    (h : Hidden) (i : nat) (state_dim action_dim : Z) (r : option exn)
    (Hbuilt : trace (exec main h) !! i =
              Some (Called (NewDQNAgent state_dim action_dim) r)) :
  exists j,
    i = S (S j) /\
    trace (exec main h) !! j = Some (Called (SetActionDim action_dim) None) /\
    trace (exec main h) !! (S j) = Some (Called (SetStateDim state_dim) None).
Proof.
  destruct (main_paths h) as (_ & _ & _ & Hdims).
  destruct (agent_dims_written_sound _ [] Hdims i state_dim action_dim r Hbuilt)
    as [Hone Htwo].
  destruct i as [|[|j]]; [done | done |].
  exists j. done.
Qed.
End StartupMore.

Lemma failed_initialization_exits_witness :
  let startup :=
    Samples.startup (Raised (Error "PermissionError" "data/sessions.json"))
      (Returned tt) (Returned tt) in
  last (trace (exec (@Main.main startup Demo.rendering) tt)) =
    Some (Main.Logged ERROR "System initialization failed. Exiting.") /\
  existsb Main.api_called (trace (exec (@Main.main startup Demo.rendering) tt)) = false /\
  existsb Main.is_serving (trace (exec (@Main.main startup Demo.rendering) tt)) = false.
Proof.
  exact (@failed_initialization_exits
           (Samples.startup (Raised (Error "PermissionError" "data/sessions.json"))
              (Returned tt) (Returned tt))
           Demo.rendering tt eq_refl).
Defined.

Lemma fatal_failure_never_serves_witness :
  let startup :=
    Samples.startup (Returned tt)
      (Raised (Error "RuntimeError" "Directory 'frontend' does not exist"))
      (Returned tt) in
  existsb Main.is_serving (trace (exec (@Main.main startup Demo.rendering) tt)) = false.
Proof.
  exact (@fatal_failure_never_serves
           (Samples.startup (Returned tt)
              (Raised (Error "RuntimeError" "Directory 'frontend' does not exist"))
              (Returned tt))
           Demo.rendering tt 35 Main.NewRecommendationAPI
           (Error "RuntimeError" "Directory 'frontend' does not exist")
           eq_refl eq_refl).
Defined.

Lemma startup_failures_are_logged_witness :
  let startup :=
    Samples.startup (Returned tt)
      (Raised (Error "RuntimeError" "Directory 'frontend' does not exist"))
      (Returned tt) in
  trace (exec (@Main.main startup Demo.rendering) tt) !! 36 =
    Some (Main.Logged ERROR
            "Failed to start server: Directory 'frontend' does not exist").
Proof.
  exact (@startup_failures_are_logged
           (Samples.startup (Returned tt)
              (Raised (Error "RuntimeError" "Directory 'frontend' does not exist"))
              (Returned tt))
           Demo.rendering tt 35 Main.NewRecommendationAPI
           (Error "RuntimeError" "Directory 'frontend' does not exist")
           eq_refl eq_refl).
Defined.

Lemma agent_built_with_written_dims_witness :
  let startup := Samples.startup (Returned tt) (Returned tt) (Returned tt) in
  exists j,
    24 = S (S j) /\
    trace (exec (@Main.main startup Demo.rendering) tt) !! j =
      Some (Main.Called (Main.SetActionDim 1) None) /\
    trace (exec (@Main.main startup Demo.rendering) tt) !! (S j) =
      Some (Main.Called (Main.SetStateDim 32) None).
Proof.
  exact (@agent_built_with_written_dims
           (Samples.startup (Returned tt) (Returned tt) (Returned tt))
           Demo.rendering tt 24 32%Z 1%Z None eq_refl).
Defined.
